(** * ParkingPopup: rating aggregation, price computation, photo resolution
      and the booking eligibility gate

    A shallow embedding of [frontend/src/components/map/ParkingPopup.tsx].

    Conventions of the embedding.

    - JavaScript values that reach the component (props, the auth-context
      user, the JSON body of the ratings response) are modelled by [JsVal];
      objects are association lists read first-binding-first.
    - JavaScript numbers are modelled by [num]: [NaN], the two infinities and
      the finite numbers, the latter as exact rationals.  Binary rounding of
      IEEE doubles and the sign of zero are not represented; every statement
      below about a finite number is a statement of exact arithmetic.  Where
      a statement about a product or a quotient carries a margin such as
      [b / 2^48], the margin is there to leave room for that rounding.
    - What the language leaves to the host (reading a number out of a string,
      printing a number, parsing a date that is not in the ISO format, the
      order chosen by [Array.prototype.sort]) and the two build-time constants
      are collected in the record [Host]; all definitions take one. *)

From Stdlib Require Import ZArith QArith Qround Qabs Qminmax Lqa Lia.
From Stdlib Require Import List String Ascii Bool.
Import ListNotations.

Local Open Scope string_scope.
Local Open Scope Q_scope.

(** ** Numbers *)

Inductive num : Type :=
| NaN
| Inf (negative : bool)
| Fin (q : Q).

Definition Qltb (x y : Q) : bool := negb (Qle_bool y x).

Definition Qsign_neg (q : Q) : bool := Qltb q 0.
Definition Qis_zero (q : Q) : bool := Qeq_bool q 0.

(** [a * b] on JavaScript numbers. *)
Definition num_mul (a b : num) : num :=
  match a, b with
  | NaN, _ | _, NaN => NaN
  | Fin x, Fin y => Fin (x * y)
  | Inf s, Inf t => Inf (xorb s t)
  | Inf s, Fin y | Fin y, Inf s =>
      if Qis_zero y then NaN else Inf (xorb s (Qsign_neg y))
  end.

(** [a + b] on JavaScript numbers. *)
Definition num_add (a b : num) : num :=
  match a, b with
  | NaN, _ | _, NaN => NaN
  | Fin x, Fin y => Fin (x + y)
  | Inf s, Inf t => if Bool.eqb s t then Inf s else NaN
  | Inf s, Fin _ | Fin _, Inf s => Inf s
  end.

(** [a / n] for a finite, strictly positive divisor [n]. *)
Definition num_div_pos (a : num) (n : Q) : num :=
  match a with
  | NaN => NaN
  | Inf s => Inf s
  | Fin x => Fin (x / n)
  end.

(** [a < b]; any comparison with [NaN] is false. *)
Definition num_lt (a b : num) : bool :=
  match a, b with
  | NaN, _ | _, NaN => false
  | Fin x, Fin y => Qltb x y
  | Inf s, Inf t => s && negb t
  | Inf s, Fin _ => s
  | Fin _, Inf t => negb t
  end.

Definition num_isFinite (a : num) : bool :=
  match a with Fin _ => true | _ => false end.

(** [n || 0] for a number [n]: [NaN] and zero are falsy. *)
Definition num_or_zero (n : num) : num :=
  match n with
  | NaN => Fin 0
  | Inf s => Inf s
  | Fin q => if Qis_zero q then Fin 0 else Fin q
  end.

(** Rounding to two decimals as [Number.prototype.toFixed(2)] does it: the
    nearest multiple of 1/100 of the magnitude, the larger one on a tie, with
    the sign put back. *)
Definition roundCents (x : Q) : Z := Qfloor (x * 100 + (1 # 2)).

Definition round2 (x : Q) : Q :=
  if Qle_bool 0 x then roundCents x # 100
  else - (roundCents (- x) # 100).

(** [+(x.toFixed(2))].  [NaN] and the infinities print as their names and read
    back as themselves.  From 10^21 on, [toFixed] prints the number in
    exponent notation; a double of that size is an integer, so reading the
    text back gives the same value as rounding to two decimals does. *)
Definition toFixed2 (x : num) : num :=
  match x with
  | Fin q => Fin (round2 q)
  | other => other
  end.

(** ** Values *)

Set Warnings "-register-all".

Inductive JsVal : Type :=
| JUndefined
| JNull
| JBool (b : bool)
| JNum (n : num)
| JStr (s : string)
| JArr (items : list JsVal)
| JObj (fields : list (string * JsVal)).

Abbreviation Obj := (list (string * JsVal)).

Inductive JsType : Type :=
| TyUndefined | TyObject | TyBoolean | TyNumber | TyString.

Definition typeof (v : JsVal) : JsType :=
  match v with
  | JUndefined => TyUndefined
  | JNull | JArr _ | JObj _ => TyObject
  | JBool _ => TyBoolean
  | JNum _ => TyNumber
  | JStr _ => TyString
  end.

Definition JsType_eqb (a b : JsType) : bool :=
  match a, b with
  | TyUndefined, TyUndefined | TyObject, TyObject | TyBoolean, TyBoolean
  | TyNumber, TyNumber | TyString, TyString => true
  | _, _ => false
  end.

(** ToBoolean. *)
Definition truthy (v : JsVal) : bool :=
  match v with
  | JUndefined | JNull => false
  | JBool b => b
  | JNum NaN => false
  | JNum (Inf _) => true
  | JNum (Fin q) => negb (Qis_zero q)
  | JStr s => negb (String.eqb s "")
  | JArr _ | JObj _ => true
  end.

Definition nullish (v : JsVal) : bool :=
  match v with JUndefined | JNull => true | _ => false end.

(** [a ?? b] and [a || b]. *)
Definition coalesce (a b : JsVal) : JsVal := if nullish a then b else a.
Definition js_or (a b : JsVal) : JsVal := if truthy a then a else b.

Infix "??" := coalesce (at level 42, left associativity).

(** Own data property of an object. *)
Fixpoint field (k : string) (o : Obj) : JsVal :=
  match o with
  | [] => JUndefined
  | (k', v) :: rest => if String.eqb k k' then v else field k rest
  end.

(** [v.k] for a value [v] that is neither [null] nor [undefined] and a name
    [k] other than [length]: primitives and arrays have no such property. *)
Definition prop (v : JsVal) (k : string) : JsVal :=
  match v with
  | JObj o => field k o
  | _ => JUndefined
  end.

(** [v?.k]. *)
Definition optprop (v : JsVal) (k : string) : JsVal := prop v k.

Definition isArray (v : JsVal) : bool :=
  match v with JArr _ => true | _ => false end.

(** ** Data of the component *)

(** A prop of type [string | null | undefined]. *)
Inductive TimeProp : Type :=
| TimeUndefined
| TimeNull
| TimeStr (s : string).

Definition timeToJs (t : TimeProp) : JsVal :=
  match t with
  | TimeUndefined => JUndefined
  | TimeNull => JNull
  | TimeStr s => JStr s
  end.

(** The [state] object handed to the vehicle-details route. *)
Module Handoff.
Record t : Type := {
  spaceId : JsVal;
  userId : JsVal;
  startTime : JsVal;
  endTime : JsVal;
  totalAmount : JsVal;
  perHour : JsVal;
  durationHours : JsVal
}.
End Handoff.

(** What a booking attempt does to the outside world, in order. *)
Inductive Effect : Type :=
| StopPropagation
| ToastInfo (msg : string)
| Navigate (path : string) (state : option Handoff.t)
| SetShowPhoneModal (open : bool)
| OnClose.

(** The event passed to the click handler: a real mouse event, or the
    stand-in [{ stopPropagation: () => {} }] of the re-trigger. *)
Inductive ClickEvent : Type :=
| MouseClick
| StandIn.

(** One render of the component: its props and the auth-context user. *)
Record Render : Type := {
  space : Obj;
  user : option Obj;
  startTime : TimeProp;
  endTime : TimeProp;
  authUser : option Obj
}.

(** A call either returns or throws a TypeError. *)
Inductive Res (A : Type) : Type :=
| Ret (a : A)
| Throw.
Arguments Ret {A} a.
Arguments Throw {A}.

Definition bind {A B : Type} (r : Res A) (k : A -> Res B) : Res B :=
  match r with
  | Ret a => k a
  | Throw => Throw
  end.

Notation "x <- r ;; k" := (bind r (fun x => k))
  (at level 61, r at next level, right associativity).

Fixpoint mapM {A B : Type} (f : A -> Res B) (l : list A) : Res (list B) :=
  match l with
  | [] => Ret []
  | x :: rest => y <- f x ;; ys <- mapM f rest ;; Ret (y :: ys)
  end.

(** The state the rating effects write. *)
Record View : Type := {
  ratingAvg : num;
  ratingCount : num;
  reviews : list JsVal;
  currentImageIndex : Z;
  isImageLoaded : bool
}.

Inductive Update : Type :=
| SetRatingAvg (n : num)
| SetRatingCount (n : num)
| SetReviews (l : list JsVal)
| SetCurrentImageIndex (i : Z)
| SetIsImageLoaded (b : bool).

Definition apply_update (v : View) (u : Update) : View :=
  match u with
  | SetRatingAvg n =>
      {| ratingAvg := n; ratingCount := ratingCount v; reviews := reviews v;
         currentImageIndex := currentImageIndex v;
         isImageLoaded := isImageLoaded v |}
  | SetRatingCount n =>
      {| ratingAvg := ratingAvg v; ratingCount := n; reviews := reviews v;
         currentImageIndex := currentImageIndex v;
         isImageLoaded := isImageLoaded v |}
  | SetReviews l =>
      {| ratingAvg := ratingAvg v; ratingCount := ratingCount v; reviews := l;
         currentImageIndex := currentImageIndex v;
         isImageLoaded := isImageLoaded v |}
  | SetCurrentImageIndex i =>
      {| ratingAvg := ratingAvg v; ratingCount := ratingCount v;
         reviews := reviews v; currentImageIndex := i;
         isImageLoaded := isImageLoaded v |}
  | SetIsImageLoaded b =>
      {| ratingAvg := ratingAvg v; ratingCount := ratingCount v;
         reviews := reviews v; currentImageIndex := currentImageIndex v;
         isImageLoaded := b |}
  end.

Definition apply_updates (v : View) (us : list Update) : View :=
  fold_left apply_update us v.

(** A ratings request: the [space] its effect closed over and the flag of its
    AbortController. *)
Record Request : Type := {
  req_space : Obj;
  req_aborted : bool
}.

(** The mounted component as far as the rating effects are concerned.
    [requests] lists every request issued so far, oldest first; [active] is
    the request whose effect has a cleanup registered. *)
Record Component : Type := {
  cur_space : Obj;
  view : View;
  requests : list Request;
  active : option nat;
  mounted : bool
}.

(** How the [axios.get] promise settles: with a response body, or with an
    error (a cancellation included). *)
Inductive Settled : Type :=
| Resolved (data : JsVal)
| Rejected.

Inductive Event : Type :=
| Select (sp : Obj)
| Fulfil (k : nat) (data : JsVal)
| Reject (k : nat)
| Unmount.

(** ** The host *)

Record Host : Type := {
  (** [import.meta.env.VITE_BASE_URL] without its trailing slash, or the
      window's origin *)
  API_BASE : string;
  (** [import.meta.env.VITE_CLOUDINARY_CLOUD_NAME], trimmed *)
  CLOUD_NAME : string;
  (** the numeric value of a string (StringToNumber) *)
  StringToNumber : string -> num;
  (** the text of a number (Number::toString) *)
  NumberToString : num -> string;
  (** [Date.parse] on a string outside the ISO format modelled below;
      [None] is the invalid date *)
  DateParseOther : string -> option Z;
  (** [Array.prototype.sort] with the newest-first comparator of the
      review list *)
  sortNewestFirst : list JsVal -> list JsVal
}.

Section WithHost.

Variable host : Host.

(** [String(v)] for plain data; an array prints its items joined by commas,
    with [null] and [undefined] items printed empty. *)
Fixpoint ToString (v : JsVal) : string :=
  match v with
  | JUndefined => "undefined"
  | JNull => "null"
  | JBool true => "true"
  | JBool false => "false"
  | JNum n => NumberToString host n
  | JStr s => s
  | JObj _ => "[object Object]"
  | JArr items =>
      (fix join (l : list JsVal) : string :=
         match l with
         | [] => ""
         | x :: rest =>
             let here := if nullish x then "" else ToString x in
             match rest with
             | [] => here
             | _ :: _ => here ++ "," ++ join rest
             end
         end) items
  end.

(** [Number(v)]. *)
Definition ToNumber (v : JsVal) : num :=
  match v with
  | JUndefined => NaN
  | JNull => Fin 0
  | JBool true => Fin 1
  | JBool false => Fin 0
  | JNum n => n
  | JStr s => StringToNumber host s
  | JArr _ | JObj _ => StringToNumber host (ToString v)
  end.

(** ** PriceCalculator *)

Record PriceBreakdown : Type := {
  basePrice : num;
  discountPercent : Q;
  discountedPrice : num;
  hasDiscount : bool
}.

(** [s.replace('%', '')]: the first percent sign is removed. *)
Fixpoint dropFirstPercent (s : string) : string :=
  match s with
  | EmptyString => EmptyString
  | String c rest =>
      if Ascii.eqb c "%"%char then rest else String c (dropFirstPercent rest)
  end.

(** [Number(s.priceParking ?? s.pricePerHour ?? s.price ?? 0) || 0] *)
Definition rawBase (s : Obj) : num :=
  num_or_zero
    (ToNumber (field "priceParking" s ?? field "pricePerHour" s
               ?? field "price" s ?? JNum (Fin 0))).

(** [s.discount ?? s.discountPercent ?? 0] *)
Definition rawDiscount (s : Obj) : JsVal :=
  field "discount" s ?? field "discountPercent" s ?? JNum (Fin 0).

Definition discountNum (raw : JsVal) : num :=
  match raw with
  | JStr t => ToNumber (JStr (dropFirstPercent t) ?? JNum (Fin 0))
  | JNum n => n
  | JArr _ | JObj _ =>
      ToNumber (prop raw "percent" ?? prop raw "value" ?? prop raw "amount"
                ?? JNum (Fin 0))
  | JUndefined | JNull | JBool _ => Fin 0
  end.

(** [Number.isFinite(d) ? Math.max(0, Math.min(100, d)) : 0] *)
Definition clamp (d : num) : Q :=
  match d with
  | Fin q => Qmax 0 (Qmin 100 q)
  | _ => 0
  end.

Definition computeDiscountedPrice (s : Obj) : PriceBreakdown :=
  let base := rawBase s in
  let clamped := clamp (discountNum (rawDiscount s)) in
  let discounted := toFixed2 (num_mul base (Fin (1 - clamped / 100))) in
  {| basePrice := toFixed2 base;
     discountPercent := clamped;
     discountedPrice := discounted;
     hasDiscount := Qltb 0 clamped && num_lt discounted base |}.

Definition breakdownToJs (p : PriceBreakdown) : JsVal :=
  JObj [ ("basePrice", JNum (basePrice p));
         ("discountPercent", JNum (Fin (discountPercent p)));
         ("discountedPrice", JNum (discountedPrice p));
         ("hasDiscount", JBool (hasDiscount p)) ].

(** [(space as any).__price ?? computeDiscountedPrice(space as any)] *)
Definition priceMeta (space : Obj) : JsVal :=
  if nullish (field "__price" space)
  then breakdownToJs (computeDiscountedPrice space)
  else field "__price" space.

(** [hasDiscount ? discountedPrice : basePrice] *)
Definition perHour (space : Obj) : JsVal :=
  let pm := priceMeta space in
  if truthy (prop pm "hasDiscount") then prop pm "discountedPrice"
  else prop pm "basePrice".

(** ** Duration of the selected window *)

Definition digit (c : ascii) : option Z :=
  let n := Z.of_nat (nat_of_ascii c) in
  if ((48 <=? n) && (n <=? 57))%Z then Some (n - 48)%Z else None.

(** Reads [n] decimal digits off the front of [l]. *)
Fixpoint digits (n : nat) (acc : Z) (l : list ascii) : option (Z * list ascii) :=
  match n with
  | O => Some (acc, l)
  | S n' =>
      match l with
      | [] => None
      | c :: rest =>
          match digit c with
          | Some d => digits n' (acc * 10 + d)%Z rest
          | None => None
          end
      end
  end.

Definition expect (c : ascii) (l : list ascii) : option (list ascii) :=
  match l with
  | c' :: rest => if Ascii.eqb c c' then Some rest else None
  | [] => None
  end.

Definition isLeap (y : Z) : bool :=
  ((y mod 4 =? 0) && (negb (y mod 100 =? 0) || (y mod 400 =? 0)))%Z.

Definition daysInMonth (y m : Z) : Z :=
  (if m =? 2 then (if isLeap y then 29 else 28)
   else if (m =? 4) || (m =? 6) || (m =? 9) || (m =? 11) then 30
   else 31)%Z.

(** Day number of a civil date, counted from 1970-01-01. *)
Definition daysFromCivil (y m d : Z) : Z :=
  (let y' := if m <=? 2 then y - 1 else y in
   let era := y' / 400 in
   let yoe := y' - era * 400 in
   let mp := (m + 9) mod 12 in
   let doy := (153 * mp + 2) / 5 + d - 1 in
   let doe := yoe * 365 + yoe / 4 - yoe / 100 + doy in
   era * 146097 + doe - 719468)%Z.

(** The time value of a string of the form [YYYY-MM-DDTHH:mm:ssZ] or
    [YYYY-MM-DDTHH:mm:ss.sssZ] naming a calendar date and a time of day;
    [None] for every other string. *)
Definition parseIsoUtc (s : string) : option Z :=
  let l := list_ascii_of_string s in
  match digits 4 0%Z l with
  | None => None
  | Some (y, l) =>
  match expect "-" l with None => None | Some l =>
  match digits 2 0%Z l with None => None | Some (m, l) =>
  match expect "-" l with None => None | Some l =>
  match digits 2 0%Z l with None => None | Some (d, l) =>
  match expect "T" l with None => None | Some l =>
  match digits 2 0%Z l with None => None | Some (h, l) =>
  match expect ":" l with None => None | Some l =>
  match digits 2 0%Z l with None => None | Some (mi, l) =>
  match expect ":" l with None => None | Some l =>
  match digits 2 0%Z l with None => None | Some (sec, l) =>
  let frac :=
    match expect "." l with
    | Some l' => digits 3 0%Z l'
    | None => Some (0%Z, l)
    end in
  match frac with None => None | Some (ms, l) =>
  match expect "Z" l with
  | Some [] =>
      if ((1 <=? m) && (m <=? 12) && (1 <=? d) && (d <=? daysInMonth y m)
          && (h <=? 23) && (mi <=? 59) && (sec <=? 59))%Z
      then Some ((((daysFromCivil y m d * 24 + h) * 60 + mi) * 60 + sec)
                 * 1000 + ms)%Z
      else None
  | _ => None
  end end end end end end end end end end end end
  end.

(** [new Date(s).getTime()]; [None] stands for [NaN]. *)
Definition dateGetTime (s : string) : option Z :=
  match parseIsoUtc s with
  | Some t => Some t
  | None => DateParseOther host s
  end.

Definition timeFalsy (t : TimeProp) : bool :=
  match t with
  | TimeStr s => String.eqb s ""
  | _ => true
  end.

(** [null] is [None].  Past the first test both props are non-empty
    strings. *)
Definition computeDurationHours (start end_ : TimeProp) : option Q :=
  if timeFalsy start || timeFalsy end_ then None
  else
    match start, end_ with
    | TimeStr s0, TimeStr e0 =>
        match dateGetTime s0, dateGetTime e0 with
        | Some s, Some e =>
            if (e <=? s)%Z then None
            else
              let minutes := inject_Z (e - s) / (1000 * 60) in
              Some (minutes / 60)
        | _, _ => None
        end
    | _, _ => None
    end.

Definition durationHours (r : Render) : JsVal :=
  match computeDurationHours (startTime r) (endTime r) with
  | Some h => JNum (Fin h)
  | None => JNull
  end.

(** [durationHours ? +(perHour * durationHours).toFixed(2) : null] *)
Definition totalAmount (r : Render) : JsVal :=
  if truthy (durationHours r)
  then JNum (toFixed2 (num_mul (ToNumber (perHour (space r)))
                               (ToNumber (durationHours r))))
  else JNull.

(** The figure on the booking button,
    [totalAmount ? fmt(totalAmount, 0) : fmt(perHour, 0)], before formatting,
    and the suffix next to it, [totalAmount ? '' : '/hr']. *)
Definition shownAmount (r : Render) : JsVal :=
  if truthy (totalAmount r) then totalAmount r else perHour (space r).

Definition shownSuffix (r : Render) : string :=
  if truthy (totalAmount r) then "" else "/hr".

(** ** ImageResolver *)

Definition startsWith (pre s : string) : bool := String.prefix pre s.

(** [s.includes('/')] *)
Fixpoint includesSlash (s : string) : bool :=
  match s with
  | EmptyString => false
  | String c rest => Ascii.eqb c "/"%char || includesSlash rest
  end.

Definition placeholder : string :=
  "https://images.unsplash.com/photo-1560518883-ce09059eeffa?ixlib=rb-4.0.3&auto=format&fit=crop&w=400&q=80".

(** [p.path.startsWith(pre)] for a truthy [p.path]: only a string has the
    method, on any other value the call throws. *)
Definition pathStartsWith (path : JsVal) (pre : string) : Res bool :=
  match path with
  | JStr t => Ret (startsWith pre t)
  | _ => Throw
  end.

Definition makeUrl (p : JsVal) : Res JsVal :=
  if negb (truthy p) then Ret JNull
  else
    match p with
    | JStr t =>
        if startsWith "http://" t || startsWith "https://" t then Ret p
        else if startsWith "/" t then Ret (JStr (API_BASE host ++ t))
        else if negb (String.eqb (CLOUD_NAME host) "") && includesSlash t
        then Ret (JStr ("https://res.cloudinary.com/" ++ CLOUD_NAME host
                        ++ "/image/upload/" ++ t))
        else Ret (JStr (API_BASE host ++ "/uploads/" ++ t))
    | JArr _ | JObj _ =>
        if truthy (prop p "url") then Ret (prop p "url")
        else
          absolute <-
            (if truthy (prop p "path")
             then (h <- pathStartsWith (prop p "path") "http://" ;;
                   if h then Ret true
                   else pathStartsWith (prop p "path") "https://")
             else Ret false) ;;
          if absolute then Ret (prop p "path")
          else
            rooted <-
              (if truthy (prop p "path")
               then pathStartsWith (prop p "path") "/"
               else Ret false) ;;
            if rooted
            then Ret (JStr (API_BASE host ++ ToString (prop p "path")))
            else if truthy (prop p "filename")
            then Ret (JStr (API_BASE host ++ "/uploads/"
                            ++ ToString (prop p "filename")))
            else Ret JNull
    | _ => Ret JNull
    end.

(** [Array.isArray(rawPhotos) && rawPhotos.length > 0
      ? rawPhotos.map(makeUrl).filter(Boolean)
      : rawPhotos ? [makeUrl(rawPhotos)].filter(Boolean) : [placeholder]] *)
Definition images (space : Obj) : Res (list JsVal) :=
  let rawPhotos := field "photos" space in
  match rawPhotos with
  | JArr (x :: rest) =>
      urls <- mapM makeUrl (x :: rest) ;; Ret (filter truthy urls)
  | _ =>
      if truthy rawPhotos
      then (u <- makeUrl rawPhotos ;; Ret (filter truthy [u]))
      else Ret [JStr placeholder]
  end.

(** ** BookingEligibilityGate *)

Definition stopPropagation (e : ClickEvent) : list Effect :=
  match e with
  | MouseClick => [StopPropagation]
  | StandIn => []
  end.

(** [(authUser as any)?.phoneVerified] *)
Definition phoneVerified (r : Render) : JsVal :=
  match authUser r with
  | Some a => field "phoneVerified" a
  | None => JUndefined
  end.

(** [v === false] *)
Definition strictlyFalse (v : JsVal) : bool :=
  match v with
  | JBool false => true
  | _ => false
  end.

(** [(space as any)._id?.toString() || (space as any)._id] *)
Definition sid (sp : Obj) : JsVal :=
  let id := field "_id" sp in
  js_or (if nullish id then JUndefined else JStr (ToString id)) id.

(** [(user as any)._id || (user as any).id] *)
Definition uid (u : Obj) : JsVal := js_or (field "_id" u) (field "id" u).

Definition handoff (r : Render) (u : Obj) : Handoff.t :=
  {| Handoff.spaceId := sid (space r);
     Handoff.userId := uid u;
     Handoff.startTime := timeToJs (startTime r) ?? JNull;
     Handoff.endTime := timeToJs (endTime r) ?? JNull;
     Handoff.totalAmount := totalAmount r;
     Handoff.perHour := perHour (space r);
     Handoff.durationHours := durationHours r |}.

Definition handleBookNow (r : Render) (e : ClickEvent) : list Effect :=
  stopPropagation e ++
  match user r with
  | None =>
      [ToastInfo "Please log in to book the parking space.";
       Navigate "/login" None]
  | Some u =>
      if negb (truthy (field "isVerified" u))
      then [ToastInfo
              "Your account is not verified. Please complete your KYC to book."]
      else if strictlyFalse (phoneVerified r)
      then [SetShowPhoneModal true]
      else [Navigate "/vehicle-details" (Some (handoff r u)); OnClose]
  end.

(** The [onSuccess] callback given to the phone-verification dialog by the
    render [r]. *)
Definition onPhoneVerifySuccess (r : Render) : list Effect :=
  SetShowPhoneModal false :: handleBookNow r StandIn.

(** The [onClose] callback given to the dialog. *)
Definition onPhoneVerifyClose : list Effect := [SetShowPhoneModal false].

(** ** RatingAggregator *)

(** [Number(space?.rating ?? 0)] *)
Definition cachedRating (sp : Obj) : num :=
  ToNumber (field "rating" sp ?? JNum (Fin 0)).

(** The three writes shared by the no-id branch of the effect and the
    [catch] block. *)
Definition fallbackUpdates (sp : Obj) : list Update :=
  [SetRatingAvg (cachedRating sp); SetRatingCount (Fin 0); SetReviews []].

(** The collection read out of the response body. *)
Definition ratingsArray (data : JsVal) : list JsVal :=
  match data with
  | JArr l => l
  | _ =>
      match optprop data "ratings" with
      | JArr l => l
      | _ => []
      end
  end.

(** [data?.stats && (typeof data.stats.avg === 'number'
                     || typeof data.stats.count === 'number')] *)
Definition statsUsable (data : JsVal) : bool :=
  let stats := optprop data "stats" in
  truthy stats
  && (JsType_eqb (typeof (prop stats "avg")) TyNumber
      || JsType_eqb (typeof (prop stats "count")) TyNumber).

(** [r.k] inside a callback over the collection: reading a property of
    [null] or [undefined] throws. *)
Definition item_prop (r : JsVal) (k : string) : Res JsVal :=
  if nullish r then Throw else Ret (prop r k).

(** [ratingsArray.reduce((s, r) => s + (Number(r.score) || 0), 0)] *)
Fixpoint sumScores (acc : num) (l : list JsVal) : Res num :=
  match l with
  | [] => Ret acc
  | r :: rest =>
      score <- item_prop r "score" ;;
      sumScores (num_add acc (num_or_zero (ToNumber score))) rest
  end.

Definition lengthNum (l : list JsVal) : Q := inject_Z (Z.of_nat (List.length l)).

Definition summaryUpdates (sp : Obj) (data : JsVal) : Res (list Update) :=
  let arr := ratingsArray data in
  if statsUsable data
  then
    let stats := prop data "stats" in
    Ret [SetRatingAvg (ToNumber (prop stats "avg" ?? JNum (Fin 0)));
         SetRatingCount (ToNumber (prop stats "count" ?? JNum (Fin 0)))]
  else if (0 <? List.length arr)%nat
  then
    sum <- sumScores (Fin 0) arr ;;
    Ret [SetRatingAvg (num_div_pos sum (Qmax 1 (lengthNum arr)));
         SetRatingCount (Fin (lengthNum arr))]
  else Ret [SetRatingAvg (cachedRating sp); SetRatingCount (Fin 0)].

(** The author of a review. *)
Definition normalizeFromUser (fu : JsVal) : JsVal :=
  match fu with
  | JStr _ => fu
  | JArr _ | JObj _ =>
      JObj [ ("name",
              js_or (js_or (js_or (prop fu "name") (prop fu "fullName"))
                           (prop fu "email"))
                    (JStr "Anonymous"));
             ("_id", prop fu "_id") ]
  | _ => JNull
  end.

Definition normalizeReview (r : JsVal) : Res JsVal :=
  id <- item_prop r "_id" ;;
  Ret (JObj [ ("_id", id);
              ("score", JNum (ToNumber (js_or (prop r "score") (JNum (Fin 0)))));
              ("comment", js_or (prop r "comment") (JStr ""));
              ("fromUser", normalizeFromUser (prop r "fromUser"));
              ("createdAt", prop r "createdAt") ]).

Definition reviewUpdates (sp : Obj) (aborted : bool) (data : JsVal)
  : Res (list Update) :=
  let arr := ratingsArray data in
  let spaceId := ToString (field "_id" sp) in
  if (0 <? List.length arr)%nat
  then
    normalized <- mapM normalizeReview arr ;;
    if String.eqb spaceId (ToString (field "_id" sp)) && negb aborted
    then Ret [SetReviews (sortNewestFirst host normalized)]
    else Ret []
  else Ret [SetReviews []].

(** The [catch] block. *)
Definition onCatch (sp : Obj) (aborted : bool) : list Update :=
  if aborted then [] else fallbackUpdates sp.

(** What the continuation of [await axios.get(...)] writes when the request
    is answered with body [data]: the writes made before a throw stay, and
    the [catch] block adds its own. *)
Definition onFulfilled (sp : Obj) (aborted : bool) (data : JsVal)
  : list Update :=
  if aborted then []
  else
    match summaryUpdates sp data with
    | Throw => onCatch sp aborted
    | Ret us1 =>
        match reviewUpdates sp aborted data with
        | Throw => us1 ++ onCatch sp aborted
        | Ret us2 => us1 ++ us2
        end
    end.

(** What happens when the request fails, a cancellation included. *)
Definition onRejected (sp : Obj) (aborted : bool) : list Update :=
  onCatch sp aborted.

(** The body of [fetchRatings] from the [await] on, for a request made for
    [sp] whose controller is in state [aborted] when the promise settles. *)
Definition fetchRatings (sp : Obj) (aborted : bool) (o : Settled)
  : list Update :=
  match o with
  | Resolved data => onFulfilled sp aborted data
  | Rejected => onRejected sp aborted
  end.

(** The first effect: clear stale state. *)
Definition resetUpdates (sp : Obj) : list Update :=
  [SetRatingAvg (cachedRating sp); SetRatingCount (Fin 0); SetReviews [];
   SetCurrentImageIndex 0%Z; SetIsImageLoaded false].

(** [Object.is] on the dependency [space?._id]; two objects or arrays are
    compared by reference, and each render brings its own. *)
Definition sameDep (a b : JsVal) : bool :=
  match a, b with
  | JUndefined, JUndefined | JNull, JNull => true
  | JBool x, JBool y => Bool.eqb x y
  | JStr x, JStr y => String.eqb x y
  | JNum NaN, JNum NaN => true
  | JNum (Inf x), JNum (Inf y) => Bool.eqb x y
  | JNum (Fin x), JNum (Fin y) => Qeq_bool x y
  | _, _ => false
  end.

Fixpoint abortAt (k : nat) (reqs : list Request) : list Request :=
  match reqs, k with
  | [], _ => []
  | r :: rest, O => {| req_space := req_space r; req_aborted := true |} :: rest
  | r :: rest, S k' => r :: abortAt k' rest
  end.

(** The cleanup of the fetch effect: [controller.abort()]. *)
Definition cleanup (c : Component) : list Request :=
  match active c with
  | Some k => abortAt k (requests c)
  | None => requests c
  end.

(** Running both effects for the space [sp] on top of the state [v] and the
    requests [reqs] issued so far. *)
Definition runEffects (sp : Obj) (v : View) (reqs : list Request) : Component :=
  let v1 := apply_updates v (resetUpdates sp) in
  if negb (truthy (field "_id" sp))
  then {| cur_space := sp; view := apply_updates v1 (fallbackUpdates sp);
          requests := reqs; active := None; mounted := true |}
  else {| cur_space := sp; view := v1;
          requests := reqs ++ [{| req_space := sp; req_aborted := false |}];
          active := Some (List.length reqs); mounted := true |}.

(** First render and mount. *)
Definition mount (sp : Obj) : Component :=
  runEffects sp
    {| ratingAvg := cachedRating sp; ratingCount := Fin 0; reviews := [];
       currentImageIndex := 0%Z; isImageLoaded := false |} [].

Definition step (c : Component) (ev : Event) : Component :=
  match ev with
  | Select sp =>
      if negb (mounted c) then c
      else if sameDep (field "_id" (cur_space c)) (field "_id" sp)
      then {| cur_space := sp; view := view c; requests := requests c;
              active := active c; mounted := true |}
      else runEffects sp (view c) (cleanup c)
  | Fulfil k data =>
      match nth_error (requests c) k with
      | Some rq =>
          {| cur_space := cur_space c;
             view := apply_updates (view c)
                       (fetchRatings (req_space rq) (req_aborted rq)
                          (Resolved data));
             requests := requests c; active := active c;
             mounted := mounted c |}
      | None => c
      end
  | Reject k =>
      match nth_error (requests c) k with
      | Some rq =>
          {| cur_space := cur_space c;
             view := apply_updates (view c)
                       (fetchRatings (req_space rq) (req_aborted rq) Rejected);
             requests := requests c; active := active c;
             mounted := mounted c |}
      | None => c
      end
  | Unmount =>
      {| cur_space := cur_space c; view := view c; requests := cleanup c;
         active := None; mounted := false |}
  end.

Definition run (c : Component) (evs : list Event) : Component :=
  fold_left step evs c.

(** What the user sees of the ratings. *)
Definition visible (c : Component) : num * num * list JsVal :=
  (ratingAvg (view c), ratingCount (view c), reviews (view c)).

End WithHost.

(** ** A host for the worked examples

    The worked examples below hand the component numbers, not numeric
    strings, and dates in the ISO format only, so that none of them depends
    on how this host fills the four host functions. *)
Definition exampleHost : Host :=
  {| API_BASE := "https://x.test";
     CLOUD_NAME := "";
     StringToNumber := fun _ => NaN;
     NumberToString := fun _ => "NaN";
     DateParseOther := fun _ => None;
     sortNewestFirst := fun l => l |}.

(** An entity with a numeric price and a numeric discount. *)
Definition pricedSpace (price discount : Q) : Obj :=
  [("price", JNum (Fin price)); ("discount", JNum (Fin discount))].

(** ** The gate as the specification tabulates it *)

Inductive EligibilityState : Type :=
| Unauthenticated
| UnverifiedIdentity
| PhoneUnverified
| Eligible.

(** The table of the specification read top to bottom: a row applies when
    its condition holds and no earlier row applied. *)
Definition eligibility (r : Render) : EligibilityState :=
  match user r with
  | None => Unauthenticated
  | Some u =>
      if negb (truthy (field "isVerified" u)) then UnverifiedIdentity
      else if strictlyFalse (phoneVerified r) then PhoneUnverified
      else Eligible
  end.

(** The handoff events in a run of effects. *)
Fixpoint handoffs (es : list Effect) : list Handoff.t :=
  match es with
  | [] => []
  | Navigate path (Some h) :: rest =>
      if String.eqb path "/vehicle-details" then h :: handoffs rest
      else handoffs rest
  | _ :: rest => handoffs rest
  end.

(** The render [r] with the auth-context user's [phoneVerified] set to [v]
    and nothing else changed. *)
Definition withPhoneVerified (v : JsVal) (r : Render) : Render :=
  {| space := space r; user := user r; startTime := startTime r;
     endTime := endTime r;
     authUser :=
       match authUser r with
       | Some a => Some (("phoneVerified", v) :: a)
       | None => Some [("phoneVerified", v)]
       end |}.

(** ** The summary as the specification words it *)

(** A record's score, [Number(r.score) || 0]. *)
Definition scoreOf (host : Host) (r : JsVal) : num :=
  num_or_zero (ToNumber host (prop r "score")).

(** The mean of the records' scores. *)
Definition meanScore (host : Host) (arr : list JsVal) : num :=
  num_div_pos (fold_left num_add (map (scoreOf host) arr) (Fin 0))
              (lengthNum arr).

Definition noNullItems (arr : list JsVal) : bool :=
  forallb (fun r => negb (nullish r)) arr.

(** A value that is not an object or an array, and so is compared by
    value. *)
Definition primitive (v : JsVal) : bool :=
  match v with
  | JArr _ | JObj _ => false
  | _ => true
  end.

(** ** The invariant of the request list *)

(** Every request but the active one is cancelled; the active one, if any,
    is the newest; an unmounted component has no active request. *)
Record Inv (c : Component) : Prop := {
  inv_others_aborted :
    forall (k : nat) (rq : Request),
      nth_error (requests c) k = Some rq -> active c <> Some k ->
      req_aborted rq = true;
  inv_active_newest :
    forall k : nat, active c = Some k -> S k = List.length (requests c);
  inv_unmounted : mounted c = false -> active c = None
}.

(** ** Data of the worked examples *)

Definition slot (start end_ : TimeProp) (u : option Obj) (a : option Obj)
  : Render :=
  {| space := [("_id", JStr "p1"); ("price", JNum (Fin 100))];
     user := u; startTime := start; endTime := end_; authUser := a |}.

Definition verifiedUser : Obj :=
  [("_id", JStr "u1"); ("isVerified", JBool true)].

Definition morning : TimeProp := TimeStr "2024-01-01T10:00:00Z".
Definition noon : TimeProp := TimeStr "2024-01-01T12:30:00Z".

(** A response whose [stats] object carries its figures as text. *)
Definition textStats : JsVal :=
  JObj [("avg", JStr "4.5"); ("count", JStr "12")].

Definition responseWith (score : Q) (stats : JsVal) : JsVal :=
  JObj [("ratings", JArr [JObj [("score", JNum (Fin score))]]);
        ("stats", stats)].

Definition blankView : View :=
  {| ratingAvg := Fin 0; ratingCount := Fin 0; reviews := [];
     currentImageIndex := 0%Z; isImageLoaded := false |}.

(** The same raw price and discount, with and without a [__price] field. *)
Definition cachedBreakdown : JsVal :=
  JObj [("basePrice", JNum (Fin 999)); ("discountPercent", JNum (Fin 0));
        ("discountedPrice", JNum (Fin 999)); ("hasDiscount", JBool false)].

Definition spaceA : Obj := [("_id", JStr "A"); ("rating", JNum (Fin 4))].
Definition spaceB : Obj := [("_id", JStr "B"); ("rating", JNum (Fin 2))].

(** * The rest of the component *)

(** ** Star row *)

Inductive Star : Type :=
| StarFull
| StarHalf
| StarEmpty.

(** [Math.floor]. *)
Definition num_floor (a : num) : num :=
  match a with
  | Fin q => Fin (inject_Z (Qfloor q))
  | other => other
  end.

(** The integer part, towards zero. *)
Definition Qtrunc (q : Q) : Z :=
  if Qle_bool 0 q then Qfloor q else Qceiling q.

(** [a % 1]: the remainder keeps the sign of [a]; an infinity has none. *)
Definition num_rem1 (a : num) : num :=
  match a with
  | Fin q => Fin (q - inject_Z (Qtrunc q))
  | _ => NaN
  end.

(** [a >= b]. *)
Definition num_ge (a b : num) : bool :=
  match a, b with
  | NaN, _ | _, NaN => false
  | Fin x, Fin y => Qle_bool y x
  | Inf s, Inf t => negb s || t
  | Inf s, Fin _ => negb s
  | Fin _, Inf t => t
  end.

(** [a === b] on numbers. *)
Definition num_eq (a b : num) : bool :=
  match a, b with
  | Fin x, Fin y => Qeq_bool x y
  | Inf s, Inf t => Bool.eqb s t
  | _, _ => false
  end.

(** The loop of [getStars] pushes one star for each [i] from 0 to 4. *)
Definition getStars (rating : num) : list Star :=
  let fullStars := num_floor rating in
  let hasHalfStar := num_ge (num_rem1 rating) (Fin (1 # 2)) in
  map (fun i : Z =>
         if num_lt (Fin (inject_Z i)) fullStars then StarFull
         else if num_eq (Fin (inject_Z i)) fullStars && hasHalfStar
         then StarHalf
         else StarEmpty)
      [0; 1; 2; 3; 4]%Z.

(** What a row of stars amounts to: one for a full star, a half for a half
    star. *)
Fixpoint starValue (l : list Star) : Q :=
  match l with
  | [] => 0
  | StarFull :: rest => 1 + starValue rest
  | StarHalf :: rest => (1 # 2) + starValue rest
  | StarEmpty :: rest => starValue rest
  end.

(** ** Carousel *)

(** [(prev + 1) % len] and [(prev - 1 + len) % len], for a non-zero [len]. *)
Definition nextIndex (len prev : Z) : Z := Z.rem (prev + 1) len.
Definition prevIndex (len prev : Z) : Z := Z.rem (prev - 1 + len) len.

Inductive Arrow : Type :=
| ArrowNext
| ArrowPrev.

(** [nextImage] and [prevImage] as state transformers.  The two buttons are
    rendered only when [images.length > 1]; with fewer images there is
    nothing to click. *)
Definition arrowClick (imgs : list JsVal) (a : Arrow) (v : View) : View :=
  if (1 <? List.length imgs)%nat
  then
    let len := Z.of_nat (List.length imgs) in
    apply_updates v
      [SetCurrentImageIndex
         (match a with
          | ArrowNext => nextIndex len (currentImageIndex v)
          | ArrowPrev => prevIndex len (currentImageIndex v)
          end);
       SetIsImageLoaded false]
  else v.

(** [images[currentImageIndex]], the [src] of the picture. *)
Definition shownImage (imgs : list JsVal) (v : View) : JsVal :=
  if (currentImageIndex v <? 0)%Z then JUndefined
  else nth (Z.to_nat (currentImageIndex v)) imgs JUndefined.

(** ** Review card *)

(** [typeof review.fromUser === 'object' && review.fromUser?.name
      ? review.fromUser.name : 'Anonymous'] *)
Definition shownAuthor (review : JsVal) : JsVal :=
  let fu := prop review "fromUser" in
  if JsType_eqb (typeof fu) TyObject && truthy (optprop fu "name")
  then prop fu "name"
  else JStr "Anonymous".

(** [review.comment || 'No comment provided.'] *)
Definition shownComment (review : JsVal) : JsVal :=
  js_or (prop review "comment") (JStr "No comment provided.").

(** ** Navbar: the guarded refresh *)

(** What the effect of the navigation bar reads from the auth context. *)
Record AuthSnapshot : Type := {
  isAuthenticated : bool;
  navUser : option Obj
}.

(** [a === b]; two objects or arrays are compared by reference, and the
    auth context brings a fresh one each time. *)
Definition strictEq (a b : JsVal) : bool :=
  match a, b with
  | JUndefined, JUndefined | JNull, JNull => true
  | JBool x, JBool y => Bool.eqb x y
  | JStr x, JStr y => String.eqb x y
  | JNum x, JNum y => num_eq x y
  | _, _ => false
  end.

(** [(user as any)?._id ?? null] *)
Definition navUserId (a : AuthSnapshot) : JsVal :=
  match navUser a with
  | Some u => field "_id" u
  | None => JUndefined
  end ?? JNull.

(** One run of the effect on the ref [lastRef]: the new content of the ref,
    and whether [refreshUser] is called. *)
Definition refreshEffect (lastRef : JsVal) (a : AuthSnapshot) : JsVal * bool :=
  let userId := navUserId a in
  if negb (isAuthenticated a) || negb (truthy userId) then (lastRef, false)
  else if strictEq lastRef userId then (lastRef, false)
  else (userId, true).

(** A sequence of runs: the final content of the ref and, oldest first, the
    user ids for which [refreshUser] was called. *)
Fixpoint refreshRuns (lastRef : JsVal) (runs : list AuthSnapshot)
  : JsVal * list JsVal :=
  match runs with
  | [] => (lastRef, [])
  | a :: rest =>
      let (ref', called) := refreshEffect lastRef a in
      let (final, calls) := refreshRuns ref' rest in
      (final, if called then navUserId a :: calls else calls)
  end.

(** [useRef<string | null>(null)] *)
Definition initialLastRef : JsVal := JNull.

(** No entry of [l] is strictly equal to the one before it, [prev] standing
    before the first. *)
Fixpoint noRepeatAfter (prev : JsVal) (l : list JsVal) : bool :=
  match l with
  | [] => true
  | x :: rest => negb (strictEq prev x) && noRepeatAfter x rest
  end.

(** ** Navbar: the KYC link *)

(** [String.prototype.trim] and [toLowerCase] on strings that are not plain
    ASCII are left to the host; on ASCII text they are given below. *)
Record TextHost : Type := {
  hostTrim : string -> string;
  hostToLowerCase : string -> string
}.

Definition asciiChar (c : ascii) : bool := (nat_of_ascii c <? 128)%nat.

Definition isAscii (s : string) : bool :=
  forallb asciiChar (list_ascii_of_string s).

(** The white space and line terminators of the ASCII range: TAB, LF, VT,
    FF, CR and the space. *)
Definition isBlank (c : ascii) : bool :=
  let n := nat_of_ascii c in
  ((9 <=? n) && (n <=? 13) || (n =? 32))%nat.

Fixpoint dropBlanks (l : list ascii) : list ascii :=
  match l with
  | [] => []
  | c :: rest => if isBlank c then dropBlanks rest else l
  end.

Definition asciiTrim (s : string) : string :=
  string_of_list_ascii
    (rev (dropBlanks (rev (dropBlanks (list_ascii_of_string s))))).

Definition lowerChar (c : ascii) : ascii :=
  let n := nat_of_ascii c in
  if ((65 <=? n) && (n <=? 90))%nat then ascii_of_nat (n + 32) else c.

Definition asciiLower (s : string) : string :=
  string_of_list_ascii (map lowerChar (list_ascii_of_string s)).

Definition trim (th : TextHost) (s : string) : string :=
  if isAscii s then asciiTrim s else hostTrim th s.

Definition toLowerCase (th : TextHost) (s : string) : string :=
  if isAscii s then asciiLower s else hostToLowerCase th s.

(** [typeof rawKyc === "string" ? rawKyc.trim().toLowerCase() : null], with
    [rawKyc = (user as any)?.kycStatus ?? null]; [None] is [null]. *)
Definition kycNormalized (th : TextHost) (u : option Obj) : option string :=
  let rawKyc :=
    match u with
    | Some o => field "kycStatus" o
    | None => JUndefined
    end ?? JNull in
  match rawKyc with
  | JStr s => Some (toLowerCase th (trim th s))
  | _ => None
  end.

(** [!(kycNormalized === "submitted" || kycNormalized === "approved")] *)
Definition shouldShowKYC (th : TextHost) (u : option Obj) : bool :=
  negb (match kycNormalized th u with
        | Some k => String.eqb k "submitted" || String.eqb k "approved"
        | None => false
        end).

(** A user record whose KYC status is the text [s]. *)
Definition userWithStatus (s : string) : option Obj :=
  Some [("_id", JStr "u1"); ("kycStatus", JStr s)].

(** * Properties *)

Local Open Scope list_scope.

(** ** Arithmetic of rounding *)

(** Closes a comparison of two rational literals by cross-multiplication. *)
Ltac literal_order := unfold Qle, Qlt; simpl; lia.

Lemma Qltb_iff (x y : Q) : Qltb x y = true <-> x < y.
Proof.
  unfold Qltb. rewrite negb_true_iff. split; intro H.
  - apply Qnot_le_lt. intro Hle. apply Qle_bool_iff in Hle. congruence.
  - destruct (Qle_bool y x) eqn:E; [|reflexivity].
    apply Qle_bool_iff in E. exfalso. apply (Qlt_not_le _ _ H E).
Qed.

Lemma Qltb_false_iff (x y : Q) : Qltb x y = false <-> y <= x.
Proof.
  unfold Qltb. rewrite negb_false_iff. apply Qle_bool_iff.
Qed.

Lemma cents_as_quotient (n : Z) : n # 100 == inject_Z n / 100.
Proof.
  unfold Qeq, Qdiv, Qmult, Qinv, inject_Z. simpl. lia.
Qed.

Lemma roundCents_below (x : Q) : inject_Z (roundCents x) <= x * 100 + (1 # 2).
Proof. apply Qfloor_le. Qed.

Lemma roundCents_above (x : Q) : x * 100 + (1 # 2) < inject_Z (roundCents x) + 1.
Proof.
  unfold roundCents.
  pose proof (Qlt_floor (x * 100 + (1 # 2))) as H.
  rewrite inject_Z_plus in H. exact H.
Qed.

Lemma roundCents_mono (x y : Q) : x <= y -> (roundCents x <= roundCents y)%Z.
Proof.
  intro H. unfold roundCents. apply Qfloor_resp_le. lra.
Qed.

Lemma roundCents_wd (x y : Q) : x == y -> roundCents x = roundCents y.
Proof.
  intro H. unfold roundCents. apply Qfloor_comp. rewrite H. reflexivity.
Qed.

Lemma roundCents_integral (x : Q) (k : Z) :
  x * 100 == inject_Z k -> roundCents x = k.
Proof.
  intro H.
  pose proof (roundCents_below x) as Hlo.
  pose proof (roundCents_above x) as Hhi.
  rewrite H in Hlo, Hhi.
  assert (L : inject_Z (roundCents x) < inject_Z (k + 1)).
  { rewrite inject_Z_plus. change (inject_Z 1) with 1. lra. }
  assert (U : inject_Z k < inject_Z (roundCents x + 1)).
  { rewrite inject_Z_plus. change (inject_Z 1) with 1. lra. }
  rewrite <- Zlt_Qlt in L, U. lia.
Qed.

Lemma round2_nonneg_eq (x : Q) : 0 <= x -> round2 x = roundCents x # 100.
Proof.
  intro H. unfold round2. apply Qle_bool_iff in H. rewrite H. reflexivity.
Qed.

Lemma round2_wd (x y : Q) : x == y -> round2 x = round2 y.
Proof.
  intro H. unfold round2.
  assert (E : Qle_bool 0 x = Qle_bool 0 y).
  { destruct (Qle_bool 0 x) eqn:Ex, (Qle_bool 0 y) eqn:Ey; try reflexivity.
    - apply Qle_bool_iff in Ex. rewrite H in Ex. apply Qle_bool_iff in Ex.
      congruence.
    - apply Qle_bool_iff in Ey. rewrite <- H in Ey. apply Qle_bool_iff in Ey.
      congruence. }
  rewrite E.
  rewrite (roundCents_wd x y H).
  assert (H' : - x == - y) by (rewrite H; reflexivity).
  rewrite (roundCents_wd (- x) (- y) H'). reflexivity.
Qed.

Lemma cents_le (m n : Z) : (m <= n)%Z -> m # 100 <= n # 100.
Proof. intro H. literal_order. Qed.

Lemma cents_lt (m n : Z) : (m < n)%Z <-> m # 100 < n # 100.
Proof. literal_order. Qed.

Lemma round2_mono_nonneg (x y : Q) : 0 <= x -> x <= y -> round2 x <= round2 y.
Proof.
  intros Hx Hxy.
  rewrite (round2_nonneg_eq x Hx), (round2_nonneg_eq y) by lra.
  apply cents_le, roundCents_mono, Hxy.
Qed.


Lemma round2_integral_cents (x : Q) (k : Z) :
  0 <= x -> x * 100 == inject_Z k -> round2 x == x.
Proof.
  intros Hx Hk. rewrite (round2_nonneg_eq x Hx), (roundCents_integral x k Hk).
  rewrite cents_as_quotient, <- Hk. field.
Qed.

Lemma clamp_range (d : num) : 0 <= clamp d /\ clamp d <= 100.
Proof.
  destruct d as [| |q]; simpl; try lra.
  split.
  - apply Q.le_max_l.
  - apply Q.max_lub; [lra | apply Q.le_min_l].
Qed.


(** ** PriceCalculator *)

Section PriceCalculator.

Variable host : Host.

Lemma discounted_of_finite_base (s : Obj) (b : Q) :
  rawBase host s = Fin b ->
  discountedPrice (computeDiscountedPrice host s)
  = Fin (round2 (b * (1 - clamp (discountNum host (rawDiscount s)) / 100))).
Proof.
  intro Hb. unfold computeDiscountedPrice. simpl. rewrite Hb. reflexivity.
Qed.

Lemma hasDiscount_of_finite_base (s : Obj) (b : Q) :
  rawBase host s = Fin b ->
  hasDiscount (computeDiscountedPrice host s)
  = Qltb 0 (clamp (discountNum host (rawDiscount s)))
    && Qltb (round2 (b * (1 - clamp (discountNum host (rawDiscount s)) / 100))) b.
Proof.
  intro Hb. unfold computeDiscountedPrice. simpl. rewrite Hb. reflexivity.
Qed.

Lemma discounted_product_range (b c : Q) :
  0 <= b -> 0 <= c -> c <= 100 ->
  0 <= b * (1 - c / 100) /\ b * (1 - c / 100) <= b.
Proof.
  intros Hb H0 H100.
  assert (F0 : 0 <= 1 - c / 100).
  { assert (c / 100 <= 1) by (apply Qle_shift_div_r; lra). lra. }
  assert (F1 : 1 - c / 100 <= 1).
  { assert (0 <= c / 100) by (apply Qle_shift_div_l; lra). lra. }
  split.
  - apply Qmult_le_0_compat; assumption.
  - assert (E : b == b * 1) by ring. rewrite E at 2.
    rewrite !(Qmult_comm b). apply Qmult_le_compat_r; assumption.
Qed.

Lemma round2_nonneg (x : Q) : 0 <= x -> 0 <= round2 x.
Proof.
  intro Hx. rewrite (round2_nonneg_eq x Hx).
  assert (H : (0 <= roundCents x)%Z).
  { unfold roundCents. change 0%Z with (Qfloor 0). apply Qfloor_resp_le. lra. }
  unfold Qle. simpl. lia.
Qed.

Lemma round2_idempotent (x : Q) : 0 <= x -> round2 (round2 x) == round2 x.
Proof.
  intro Hx.
  apply (round2_integral_cents (round2 x) (roundCents x)).
  - apply round2_nonneg, Hx.
  - rewrite (round2_nonneg_eq x Hx), cents_as_quotient. field.
Qed.

(** A rounded price below the rounded base is below the base itself. *)
Lemma below_rounded_base (x b : Q) :
  0 <= x -> 0 <= b -> round2 x < round2 b -> round2 x < b.
Proof.
  intros Hx Hb H.
  rewrite (round2_nonneg_eq x Hx), (round2_nonneg_eq b Hb) in H.
  apply cents_lt in H.
  rewrite (round2_nonneg_eq x Hx), cents_as_quotient.
  pose proof (roundCents_below b) as Hlo.
  assert (L : inject_Z (roundCents x) + 1 <= inject_Z (roundCents b)).
  { change 1 with (inject_Z 1). rewrite <- inject_Z_plus.
    rewrite <- Zle_Qle. lia. }
  apply Qlt_shift_div_r; lra.
Qed.




(** C3, as amended: for a finite base price [b >= 0], [hasDiscount] is true
    exactly when the clamped percentage is positive and the rounded
    discounted price is strictly below the base price as given (not
    rounded); it is true in particular whenever the rounded discounted price
    is strictly below the rounded base price; and [b = 100], [d = 0.001]
    gives [hasDiscount = false]. *)
Theorem hasDiscount_iff_below_raw_base :
  (forall (s : Obj) (b : Q),
     rawBase host s = Fin b -> 0 <= b ->
     exists p : Q,
       discountedPrice (computeDiscountedPrice host s) = Fin p
       /\ (hasDiscount (computeDiscountedPrice host s) = true
           <-> 0 < discountPercent (computeDiscountedPrice host s) /\ p < b)
       /\ (0 < discountPercent (computeDiscountedPrice host s) ->
           round2 p < round2 b ->
           hasDiscount (computeDiscountedPrice host s) = true))
  /\ hasDiscount (computeDiscountedPrice host (pricedSpace 100 (1 # 1000)))
     = false.
Proof.
  split; [|reflexivity].
  intros s b Hb Hb0.
  set (c := clamp (discountNum host (rawDiscount s))).
  exists (round2 (b * (1 - c / 100))).
  assert (Hdp : discountPercent (computeDiscountedPrice host s) = c)
    by reflexivity.
  rewrite Hdp.
  pose proof (clamp_range (discountNum host (rawDiscount s))) as [C0 C100].
  fold c in C0, C100.
  pose proof (discounted_product_range b c Hb0 C0 C100) as [P0 P1].
  assert (Hiff : hasDiscount (computeDiscountedPrice host s) = true
                 <-> 0 < c /\ round2 (b * (1 - c / 100)) < b).
  { rewrite (hasDiscount_of_finite_base s b Hb). fold c.
    rewrite andb_true_iff, !Qltb_iff. reflexivity. }
  split; [apply (discounted_of_finite_base s b Hb)|].
  split; [exact Hiff|].
  intros Hc Hlt. apply Hiff. split; [exact Hc|].
  apply below_rounded_base; try assumption.
  rewrite <- (round2_idempotent _ P0). exact Hlt.
Qed.

End PriceCalculator.



(** C3, as stated, fails: at base 100.004 and discount 0.001 percent both the
    discounted price and the base price round to 100.00, and [hasDiscount]
    is true all the same. *)
Lemma hasDiscount_with_equal_rounded_prices :
  hasDiscount (computeDiscountedPrice exampleHost
                 (pricedSpace (100004 # 1000) (1 # 1000))) = true
  /\ discountedPrice (computeDiscountedPrice exampleHost
                        (pricedSpace (100004 # 1000) (1 # 1000)))
     = Fin (10000 # 100)
  /\ basePrice (computeDiscountedPrice exampleHost
                  (pricedSpace (100004 # 1000) (1 # 1000)))
     = Fin (10000 # 100)
  /\ ~ (round2 (10000 # 100) < round2 (100004 # 1000)).
Proof.
  repeat split; try reflexivity.
  intro H. vm_compute in H. discriminate.
Qed.

Lemma hasDiscount_iff_below_raw_base_witness :
  exists p : Q,
    discountedPrice (computeDiscountedPrice exampleHost (pricedSpace 200 25))
    = Fin p
    /\ (hasDiscount (computeDiscountedPrice exampleHost (pricedSpace 200 25))
        = true
        <-> 0 < discountPercent
                  (computeDiscountedPrice exampleHost (pricedSpace 200 25))
            /\ p < 200)
    /\ (0 < discountPercent
              (computeDiscountedPrice exampleHost (pricedSpace 200 25)) ->
        round2 p < round2 200 ->
        hasDiscount (computeDiscountedPrice exampleHost (pricedSpace 200 25))
        = true).
Proof.
  apply (proj1 (hasDiscount_iff_below_raw_base exampleHost)
           (pricedSpace 200 25) 200).
  - reflexivity.
  - literal_order.
Defined.

(** C9, as stated, fails: two entities with the same raw price and discount
    fields are shown different breakdowns when one of them carries a
    [__price] field. *)
Lemma priceMeta_not_from_raw_fields_alone :
  (forall k : string,
      In k ["priceParking"; "pricePerHour"; "price"; "discount";
            "discountPercent"] ->
      field k (("__price", cachedBreakdown) :: pricedSpace 200 25)
      = field k (pricedSpace 200 25))
  /\ priceMeta exampleHost (("__price", cachedBreakdown) :: pricedSpace 200 25)
     = cachedBreakdown
  /\ priceMeta exampleHost (("__price", cachedBreakdown) :: pricedSpace 200 25)
     <> priceMeta exampleHost (pricedSpace 200 25).
Proof.
  split; [|split].
  - intros k Hk. simpl in Hk.
    repeat (destruct Hk as [Hk|Hk]; [subst k; reflexivity|]).
    destruct Hk.
  - reflexivity.
  - vm_compute. discriminate.
Qed.

Section Breakdown.

Variable host : Host.

Lemma rawBase_ext (s1 s2 : Obj) :
  field "priceParking" s1 = field "priceParking" s2 ->
  field "pricePerHour" s1 = field "pricePerHour" s2 ->
  field "price" s1 = field "price" s2 ->
  rawBase host s1 = rawBase host s2.
Proof. intros H1 H2 H3. unfold rawBase. rewrite H1, H2, H3. reflexivity. Qed.

Lemma rawDiscount_ext (s1 s2 : Obj) :
  field "discount" s1 = field "discount" s2 ->
  field "discountPercent" s1 = field "discountPercent" s2 ->
  rawDiscount s1 = rawDiscount s2.
Proof. intros H1 H2. unfold rawDiscount. rewrite H1, H2. reflexivity. Qed.

Lemma computeDiscountedPrice_ext (s1 s2 : Obj) :
  rawBase host s1 = rawBase host s2 ->
  rawDiscount s1 = rawDiscount s2 ->
  computeDiscountedPrice host s1 = computeDiscountedPrice host s2.
Proof.
  intros Hb Hd. unfold computeDiscountedPrice. rewrite Hb, Hd. reflexivity.
Qed.

(** C9, as amended: the displayed breakdown is the entity's [__price] field
    when that field is neither [null] nor [undefined], and otherwise the
    breakdown computed from the entity; either way it is a function of the
    entity's [__price], [priceParking], [pricePerHour], [price], [discount]
    and [discountPercent] fields alone, computed afresh from the entity it
    is given. *)
Theorem priceMeta_determined_by_fields (s1 s2 : Obj) :
  (forall k : string,
      In k ["__price"; "priceParking"; "pricePerHour"; "price"; "discount";
            "discountPercent"] ->
      field k s1 = field k s2) ->
  priceMeta host s1 = priceMeta host s2
  /\ (nullish (field "__price" s1) = true ->
      priceMeta host s1 = breakdownToJs (computeDiscountedPrice host s1))
  /\ (nullish (field "__price" s1) = false ->
      priceMeta host s1 = field "__price" s1).
Proof.
  intro H.
  assert (E : computeDiscountedPrice host s1 = computeDiscountedPrice host s2).
  { apply computeDiscountedPrice_ext.
    - apply rawBase_ext; apply H; simpl; tauto.
    - apply rawDiscount_ext; apply H; simpl; tauto. }
  assert (P : field "__price" s1 = field "__price" s2)
    by (apply H; simpl; tauto).
  unfold priceMeta. rewrite <- P, <- E.
  split; [reflexivity|].
  split; intro N; rewrite N; reflexivity.
Qed.

End Breakdown.

Lemma priceMeta_determined_by_fields_witness :
  priceMeta exampleHost (("name", JStr "Lot 7") :: pricedSpace 200 25)
  = priceMeta exampleHost (pricedSpace 200 25)
  /\ (nullish (field "__price" (("name", JStr "Lot 7") :: pricedSpace 200 25))
      = true ->
      priceMeta exampleHost (("name", JStr "Lot 7") :: pricedSpace 200 25)
      = breakdownToJs
          (computeDiscountedPrice exampleHost
             (("name", JStr "Lot 7") :: pricedSpace 200 25)))
  /\ (nullish (field "__price" (("name", JStr "Lot 7") :: pricedSpace 200 25))
      = false ->
      priceMeta exampleHost (("name", JStr "Lot 7") :: pricedSpace 200 25)
      = field "__price" (("name", JStr "Lot 7") :: pricedSpace 200 25)).
Proof.
  apply (priceMeta_determined_by_fields exampleHost
           (("name", JStr "Lot 7") :: pricedSpace 200 25) (pricedSpace 200 25)).
  intros k Hk. simpl in Hk.
  repeat (destruct Hk as [Hk|Hk]; [subst k; reflexivity|]).
  destruct Hk.
Defined.

(** ** Duration and total *)

Section Duration.

Variable host : Host.

Lemma dateGetTime_empty :
  DateParseOther host "" = None -> dateGetTime host "" = None.
Proof. intro H. unfold dateGetTime. simpl. exact H. Qed.

Lemma timeFalsy_str (s : string) :
  timeFalsy (TimeStr s) = true <-> s = "".
Proof. simpl. apply String.eqb_eq. Qed.

Lemma no_duration_no_total (r : Render) :
  computeDurationHours host (startTime r) (endTime r) = None ->
  durationHours host r = JNull /\ totalAmount host r = JNull
  /\ shownAmount host r = perHour host (space r)
  /\ shownSuffix host r = "/hr".
Proof.
  intro H.
  assert (D : durationHours host r = JNull)
    by (unfold durationHours; rewrite H; reflexivity).
  assert (T : totalAmount host r = JNull)
    by (unfold totalAmount; rewrite D; reflexivity).
  unfold shownAmount, shownSuffix. rewrite T. simpl. auto.
Qed.

(** C7: with a host whose date parser rejects the empty string, the
    duration is defined, and equal to the minutes between the two instants
    divided by 60, exactly when both timestamps are given, both parse and
    the end is strictly after the start; in every other case
    [computeDurationHours] returns [null], the total is [null] and the
    button shows the hourly rate; the window from 10:00 to 12:30 on
    2024-01-01 lasts 2.5 hours.  The functions involved are total. *)
Theorem durationHours_defined_iff (r : Render) :
  DateParseOther host "" = None ->
  (forall h : Q,
      computeDurationHours host (startTime r) (endTime r) = Some h
      <-> exists (s e : string) (ts te : Z),
            startTime r = TimeStr s /\ endTime r = TimeStr e
            /\ dateGetTime host s = Some ts /\ dateGetTime host e = Some te
            /\ (ts < te)%Z
            /\ h = inject_Z (te - ts) / (1000 * 60) / 60)
  /\ (computeDurationHours host (startTime r) (endTime r) = None ->
      durationHours host r = JNull /\ totalAmount host r = JNull
      /\ shownAmount host r = perHour host (space r)
      /\ shownSuffix host r = "/hr")
  /\ (exists h : Q,
        computeDurationHours host morning noon = Some h /\ h == 5 # 2).
Proof.
  intro Hempty. split; [|split].
  - intro h. split.
    + unfold computeDurationHours.
      destruct (timeFalsy (startTime r) || timeFalsy (endTime r));
        try discriminate.
      destruct (startTime r) as [| |s]; try discriminate.
      destruct (endTime r) as [| |e]; try discriminate.
      destruct (dateGetTime host s) as [ts|] eqn:Es; try discriminate.
      destruct (dateGetTime host e) as [te|] eqn:Ee; try discriminate.
      destruct (te <=? ts)%Z eqn:Ele; try discriminate.
      intro H. injection H as H. apply Z.leb_gt in Ele.
      exists s, e, ts, te. repeat split; auto.
    + intros (s & e & ts & te & Hs & He & Ps & Pe & Hlt & Hh).
      unfold computeDurationHours. rewrite Hs, He.
      assert (Ns : timeFalsy (TimeStr s) = false).
      { destruct (timeFalsy (TimeStr s)) eqn:F; [|reflexivity].
        apply timeFalsy_str in F. subst s.
        rewrite (dateGetTime_empty Hempty) in Ps. discriminate. }
      assert (Ne : timeFalsy (TimeStr e) = false).
      { destruct (timeFalsy (TimeStr e)) eqn:F; [|reflexivity].
        apply timeFalsy_str in F. subst e.
        rewrite (dateGetTime_empty Hempty) in Pe. discriminate. }
      rewrite Ns, Ne. simpl orb. cbv iota. rewrite Ps, Pe.
      apply Z.leb_gt in Hlt. rewrite Hlt. rewrite Hh. reflexivity.
  - apply no_duration_no_total.
  - eexists. split; [reflexivity|]. vm_compute. reflexivity.
Qed.

End Duration.

Lemma durationHours_defined_iff_witness :
  (forall h : Q,
      computeDurationHours exampleHost
        (startTime (slot morning noon None None))
        (endTime (slot morning noon None None)) = Some h
      <-> exists (s e : string) (ts te : Z),
            startTime (slot morning noon None None) = TimeStr s
            /\ endTime (slot morning noon None None) = TimeStr e
            /\ dateGetTime exampleHost s = Some ts
            /\ dateGetTime exampleHost e = Some te
            /\ (ts < te)%Z
            /\ h = inject_Z (te - ts) / (1000 * 60) / 60)
  /\ (computeDurationHours exampleHost
        (startTime (slot morning noon None None))
        (endTime (slot morning noon None None)) = None ->
      durationHours exampleHost (slot morning noon None None) = JNull
      /\ totalAmount exampleHost (slot morning noon None None) = JNull
      /\ shownAmount exampleHost (slot morning noon None None)
         = perHour exampleHost (space (slot morning noon None None))
      /\ shownSuffix exampleHost (slot morning noon None None) = "/hr")
  /\ (exists h : Q,
        computeDurationHours exampleHost morning noon = Some h /\ h == 5 # 2).
Proof.
  apply (durationHours_defined_iff exampleHost (slot morning noon None None)).
  reflexivity.
Defined.

(** The instants of the worked example. *)
Example morning_time_value :
  dateGetTime exampleHost "2024-01-01T10:00:00Z" = Some 1704103200000%Z.
Proof. reflexivity. Qed.

Example end_before_start_has_no_duration :
  computeDurationHours exampleHost noon morning = None
  /\ computeDurationHours exampleHost morning morning = None
  /\ computeDurationHours exampleHost morning TimeNull = None.
Proof. repeat split. Qed.

(** ** ImageResolver *)

Section ImageResolver.

Variable host : Host.

(** C6 fails on the code at an empty collection: no placeholder is put in
    and the image list is empty.  The same happens to a collection whose
    items all resolve to nothing. *)
Theorem images_of_empty_collection :
  images host [("photos", JArr [])] = Ret []
  /\ images host [("photos", JArr [JNull])] = Ret []
  /\ images host [] = Ret [JStr placeholder].
Proof. repeat split. Qed.

Lemma images_absent (sp : Obj) :
  truthy (field "photos" sp) = false ->
  images host sp = Ret [JStr placeholder].
Proof.
  intro H. unfold images.
  destruct (field "photos" sp) as [| |b|n|s|l|o];
    try (simpl in H; discriminate); try reflexivity;
    cbv beta iota zeta; rewrite H; reflexivity.
Qed.

(** A path that is not text makes [makeUrl] throw. *)
Lemma makeUrl_throws_on_numeric_path :
  makeUrl host (JObj [("path", JNum (Fin 5))]) = Throw.
Proof. reflexivity. Qed.

End ImageResolver.

Example bare_filename_goes_to_uploads :
  images exampleHost [("photos", JStr "abc.jpg")]
  = Ret [JStr "https://x.test/uploads/abc.jpg"].
Proof. reflexivity. Qed.

(** ** BookingEligibilityGate *)

Section Gate.

Variable host : Host.

Lemma strictlyFalse_iff (v : JsVal) : strictlyFalse v = true <-> v = JBool false.
Proof.
  split.
  - destruct v as [| |[|]|n|s|l|o]; simpl; intro H; try discriminate; reflexivity.
  - intro H. subst v. reflexivity.
Qed.

Lemma strictlyFalse_false_iff (v : JsVal) :
  strictlyFalse v = false <-> v <> JBool false.
Proof.
  split.
  - intros H E. apply strictlyFalse_iff in E. congruence.
  - intro H. destruct (strictlyFalse v) eqn:E; [|reflexivity].
    apply strictlyFalse_iff in E. contradiction.
Qed.

Lemma handoffs_app (es fs : list Effect) :
  handoffs (es ++ fs) = handoffs es ++ handoffs fs.
Proof.
  induction es as [|x es IH]; [reflexivity|].
  destruct x as [|m|p [h|]|b|]; simpl; try exact IH.
  destruct (String.eqb p "/vehicle-details"); simpl; [f_equal|]; exact IH.
Qed.

Lemma handoffs_stopPropagation (e : ClickEvent) :
  handoffs (stopPropagation e) = [].
Proof. destruct e; reflexivity. Qed.

Lemma eligibility_cases (r : Render) :
  (eligibility r = Unauthenticated /\ user r = None)
  \/ (exists u, eligibility r = UnverifiedIdentity /\ user r = Some u
                /\ truthy (field "isVerified" u) = false)
  \/ (exists u, eligibility r = PhoneUnverified /\ user r = Some u
                /\ truthy (field "isVerified" u) = true
                /\ phoneVerified r = JBool false)
  \/ (exists u, eligibility r = Eligible /\ user r = Some u
                /\ truthy (field "isVerified" u) = true
                /\ phoneVerified r <> JBool false).
Proof.
  unfold eligibility.
  destruct (user r) as [u|]; [|left; auto].
  right.
  destruct (truthy (field "isVerified" u)) eqn:V; simpl.
  - right.
    destruct (strictlyFalse (phoneVerified r)) eqn:P.
    + left. exists u. apply strictlyFalse_iff in P. auto.
    + right. exists u. apply strictlyFalse_false_iff in P. auto.
  - left. exists u. auto.
Qed.

Lemma handleBookNow_by_state (r : Render) (e : ClickEvent) :
  match eligibility r with
  | Unauthenticated =>
      handleBookNow host r e
      = stopPropagation e
        ++ [ToastInfo "Please log in to book the parking space.";
            Navigate "/login" None]
  | UnverifiedIdentity =>
      handleBookNow host r e
      = stopPropagation e
        ++ [ToastInfo
              "Your account is not verified. Please complete your KYC to book."]
  | PhoneUnverified =>
      handleBookNow host r e = stopPropagation e ++ [SetShowPhoneModal true]
  | Eligible =>
      exists u, user r = Some u
        /\ handleBookNow host r e
           = stopPropagation e
             ++ [Navigate "/vehicle-details" (Some (handoff host r u)); OnClose]
  end.
Proof.
  unfold eligibility, handleBookNow.
  destruct (user r) as [u|]; [|reflexivity].
  destruct (negb (truthy (field "isVerified" u))); [reflexivity|].
  destruct (strictlyFalse (phoneVerified r)); [reflexivity|].
  exists u. split; reflexivity.
Qed.

Lemma distinct_states_distinct_effects (r1 r2 : Render) (e : ClickEvent) :
  eligibility r1 <> eligibility r2 ->
  handleBookNow host r1 e <> handleBookNow host r2 e.
Proof.
  intros Hne Heq.
  pose proof (handleBookNow_by_state r1 e) as H1.
  pose proof (handleBookNow_by_state r2 e) as H2.
  destruct (eligibility r1), (eligibility r2);
    try (apply Hne; reflexivity);
    repeat match goal with
           | H : exists _, _ |- _ => destruct H as (? & _ & H)
           end;
    rewrite H1, H2 in Heq; destruct e; discriminate.
Qed.

(** C2: a booking attempt falls in exactly one row of the table, the rows
    being tried from the top (no session; identity not verified; phone flag
    strictly [false]; otherwise eligible), and does what the row says: a
    login notice and redirect; a blocking notice; the phone-verification
    dialog; or one handoff to the vehicle-details route with the seven
    fields of the payload, followed by closing the view.  A blocked attempt
    emits no handoff and does not close the view, and attempts in different
    rows never produce the same effects. *)
Theorem gate_follows_table (r : Render) (e : ClickEvent) :
  ((eligibility r = Unauthenticated /\ user r = None)
   \/ (exists u, eligibility r = UnverifiedIdentity /\ user r = Some u
                 /\ truthy (field "isVerified" u) = false)
   \/ (exists u, eligibility r = PhoneUnverified /\ user r = Some u
                 /\ truthy (field "isVerified" u) = true
                 /\ phoneVerified r = JBool false)
   \/ (exists u, eligibility r = Eligible /\ user r = Some u
                 /\ truthy (field "isVerified" u) = true
                 /\ phoneVerified r <> JBool false))
  /\ match eligibility r with
     | Unauthenticated =>
         handleBookNow host r e
         = stopPropagation e
           ++ [ToastInfo "Please log in to book the parking space.";
               Navigate "/login" None]
     | UnverifiedIdentity =>
         handleBookNow host r e
         = stopPropagation e
           ++ [ToastInfo
                 "Your account is not verified. Please complete your KYC to book."]
     | PhoneUnverified =>
         handleBookNow host r e = stopPropagation e ++ [SetShowPhoneModal true]
     | Eligible =>
         exists u, user r = Some u
           /\ handleBookNow host r e
              = stopPropagation e
                ++ [Navigate "/vehicle-details" (Some (handoff host r u));
                    OnClose]
           /\ handoffs (handleBookNow host r e) = [handoff host r u]
           /\ handoff host r u
              = {| Handoff.spaceId := sid host (space r);
                   Handoff.userId := uid u;
                   Handoff.startTime := timeToJs (startTime r) ?? JNull;
                   Handoff.endTime := timeToJs (endTime r) ?? JNull;
                   Handoff.totalAmount := totalAmount host r;
                   Handoff.perHour := perHour host (space r);
                   Handoff.durationHours := durationHours host r |}
     end
  /\ (eligibility r <> Eligible ->
      handoffs (handleBookNow host r e) = []
      /\ ~ In OnClose (handleBookNow host r e))
  /\ (forall r' : Render,
        eligibility r <> eligibility r' ->
        handleBookNow host r e <> handleBookNow host r' e).
Proof.
  split; [apply eligibility_cases|].
  pose proof (handleBookNow_by_state r e) as H.
  split; [|split].
  - destruct (eligibility r); try exact H.
    destruct H as (u & Hu & Hh). exists u.
    split; [exact Hu|]. split; [exact Hh|]. split; [|reflexivity].
    rewrite Hh, handoffs_app, handoffs_stopPropagation. reflexivity.
  - intro Hne.
    destruct (eligibility r); try (exfalso; apply Hne; reflexivity);
      rewrite H, handoffs_app, handoffs_stopPropagation;
      (split; [reflexivity|]);
      intro Hin; apply in_app_or in Hin; destruct Hin as [Hin|Hin];
      try (destruct e; simpl in Hin; intuition discriminate);
      simpl in Hin; intuition discriminate.
  - intros r'. apply distinct_states_distinct_effects.
Qed.

(** X27: with the flag still [false] in the render that supplied the
    callback, the re-trigger opens the dialog again and hands nothing
    off. *)
Lemma reentry_with_flag_still_false (r : Render) (u : Obj) :
  user r = Some u -> truthy (field "isVerified" u) = true ->
  phoneVerified r = JBool false ->
  onPhoneVerifySuccess host r = [SetShowPhoneModal false; SetShowPhoneModal true].
Proof.
  intros Hu Hv Hp. unfold onPhoneVerifySuccess, handleBookNow.
  rewrite Hu, Hv, Hp. reflexivity.
Qed.

Lemma phoneVerified_withPhoneVerified (v : JsVal) (r : Render) :
  phoneVerified (withPhoneVerified v r) = v.
Proof.
  unfold phoneVerified, withPhoneVerified. simpl.
  destruct (authUser r); reflexivity.
Qed.

(** C8: for a user with a session, a verified identity and the phone flag
    [false], the first attempt opens the phone-verification dialog.  Its
    success callback closes the dialog and runs the whole of
    [handleBookNow] again, from the session check on, whatever render
    supplies it: without a session it redirects to login, without a
    verified identity it shows the notice.  When nothing but the phone flag
    has changed, to [true] or any value other than [false], the callback
    reaches the last row and emits exactly one handoff. *)
Theorem reentry_after_phone_verification (r : Render) (u : Obj) (v : JsVal) :
  user r = Some u -> truthy (field "isVerified" u) = true ->
  phoneVerified r = JBool false ->
  strictlyFalse v = false ->
  handleBookNow host r MouseClick = [StopPropagation; SetShowPhoneModal true]
  /\ (forall r' : Render,
        onPhoneVerifySuccess host r'
        = SetShowPhoneModal false :: handleBookNow host r' StandIn)
  /\ (forall r' : Render,
        user r' = None ->
        onPhoneVerifySuccess host r'
        = [SetShowPhoneModal false;
           ToastInfo "Please log in to book the parking space.";
           Navigate "/login" None])
  /\ (forall (r' : Render) (u' : Obj),
        user r' = Some u' -> truthy (field "isVerified" u') = false ->
        onPhoneVerifySuccess host r'
        = [SetShowPhoneModal false;
           ToastInfo
             "Your account is not verified. Please complete your KYC to book."])
  /\ eligibility (withPhoneVerified v r) = Eligible
  /\ onPhoneVerifySuccess host (withPhoneVerified v r)
     = [SetShowPhoneModal false;
        Navigate "/vehicle-details" (Some (handoff host r u));
        OnClose]
  /\ handoffs (onPhoneVerifySuccess host (withPhoneVerified v r))
     = [handoff host r u].
Proof.
  intros Hu Hv Hp Hnf.
  assert (Hre : onPhoneVerifySuccess host (withPhoneVerified v r)
                = [SetShowPhoneModal false;
                   Navigate "/vehicle-details" (Some (handoff host r u));
                   OnClose]).
  { unfold onPhoneVerifySuccess, handleBookNow.
    rewrite phoneVerified_withPhoneVerified, Hnf.
    change (user (withPhoneVerified v r)) with (user r).
    rewrite Hu, Hv. reflexivity. }
  repeat split.
  - unfold handleBookNow. rewrite Hu, Hv, Hp. reflexivity.
  - intros r' Hn. unfold onPhoneVerifySuccess, handleBookNow.
    rewrite Hn. reflexivity.
  - intros r' u' Hu' Hv'. unfold onPhoneVerifySuccess, handleBookNow.
    rewrite Hu', Hv'. reflexivity.
  - unfold eligibility. rewrite phoneVerified_withPhoneVerified, Hnf.
    change (user (withPhoneVerified v r)) with (user r).
    rewrite Hu, Hv. reflexivity.
  - exact Hre.
  - rewrite Hre. reflexivity.
Qed.

(** C10: two booking attempts whose passed-in user records differ at most
    in their [phoneVerified] field, everything else being equal, have the
    same effects; and with a session and a verified identity the dialog is
    opened exactly when the auth-context record's [phoneVerified] is
    [false]. *)
Theorem gate_reads_auth_context_flag (r1 r2 : Render) (e : ClickEvent) :
  space r1 = space r2 -> startTime r1 = startTime r2 ->
  endTime r1 = endTime r2 -> authUser r1 = authUser r2 ->
  match user r1, user r2 with
  | Some u1, Some u2 =>
      forall k : string, k <> "phoneVerified" -> field k u1 = field k u2
  | None, None => True
  | _, _ => False
  end ->
  handleBookNow host r1 e = handleBookNow host r2 e
  /\ (forall u1 : Obj,
        user r1 = Some u1 -> truthy (field "isVerified" u1) = true ->
        (handleBookNow host r1 e = stopPropagation e ++ [SetShowPhoneModal true]
         <-> exists a : Obj,
               authUser r1 = Some a /\ field "phoneVerified" a = JBool false)).
Proof.
  intros Hs Hst Hen Ha Hu.
  split.
  - destruct r1 as [s1 u1 st1 en1 a1], r2 as [s2 u2 st2 en2 a2].
    simpl in *. subst s2 st2 en2 a2.
    destruct u1 as [u1|], u2 as [u2|]; try contradiction; [|reflexivity].
    unfold handleBookNow, handoff, phoneVerified, uid, totalAmount,
      durationHours. simpl.
    rewrite (Hu "isVerified"), (Hu "_id"), (Hu "id") by discriminate.
    reflexivity.
  - intros u1 Hu1 Hv. unfold handleBookNow. rewrite Hu1, Hv. simpl.
    split.
    + destruct (strictlyFalse (phoneVerified r1)) eqn:P.
      * intros _. apply strictlyFalse_iff in P. unfold phoneVerified in P.
        destruct (authUser r1) as [a|]; [|discriminate].
        exists a. auto.
      * intro H. apply app_inv_head in H. discriminate.
    + intros (a & Ea & Fa). unfold phoneVerified. rewrite Ea, Fa. reflexivity.
Qed.

End Gate.

(** ** RatingAggregator: normalization of the response *)

Section Summary.

Variable host : Host.

Lemma apply_updates_app (v : View) (us ws : list Update) :
  apply_updates v (us ++ ws) = apply_updates (apply_updates v us) ws.
Proof. unfold apply_updates. apply fold_left_app. Qed.

Lemma sumScores_no_null (arr : list JsVal) (acc : num) :
  noNullItems arr = true ->
  sumScores host acc arr
  = Ret (fold_left num_add (map (scoreOf host) arr) acc).
Proof.
  revert acc. induction arr as [|r arr IH]; intros acc H; [reflexivity|].
  simpl in H. apply andb_true_iff in H. destruct H as [Hr Harr].
  simpl. unfold item_prop. apply negb_true_iff in Hr. rewrite Hr. simpl.
  apply IH, Harr.
Qed.

Lemma sumScores_null (arr : list JsVal) (acc : num) :
  noNullItems arr = false -> sumScores host acc arr = Throw.
Proof.
  revert acc. induction arr as [|r arr IH]; intros acc H; [discriminate|].
  simpl in H. simpl. unfold item_prop.
  destruct (nullish r); [reflexivity|]. simpl in *. apply IH, H.
Qed.

Lemma normalize_no_null (arr : list JsVal) :
  noNullItems arr = true ->
  exists l, mapM (normalizeReview host) arr = Ret l.
Proof.
  induction arr as [|r arr IH]; intro H; [exists []; reflexivity|].
  simpl in H. apply andb_true_iff in H. destruct H as [Hr Harr].
  destruct (IH Harr) as [l Hl].
  simpl. unfold normalizeReview at 1, item_prop.
  apply negb_true_iff in Hr. rewrite Hr. simpl. rewrite Hl. simpl.
  eexists. reflexivity.
Qed.

Lemma normalize_null (arr : list JsVal) :
  noNullItems arr = false -> mapM (normalizeReview host) arr = Throw.
Proof.
  induction arr as [|r arr IH]; intro H; [discriminate|].
  simpl in H. simpl. unfold normalizeReview at 1, item_prop.
  destruct (nullish r); [reflexivity|]. simpl in *. rewrite (IH H).
  reflexivity.
Qed.

Lemma Qmax_one_length (arr : list JsVal) :
  arr <> [] -> Qmax 1 (lengthNum arr) = lengthNum arr.
Proof.
  intro H. destruct arr as [|r arr]; [contradiction|].
  unfold Qmax, GenericMinMax.gmax, lengthNum.
  assert (L : 1 <= inject_Z (Z.of_nat (List.length (r :: arr)))).
  { change 1 with (inject_Z 1). rewrite <- Zle_Qle. simpl List.length. lia. }
  destruct (1 ?= inject_Z (Z.of_nat (List.length (r :: arr)))) eqn:C;
    try reflexivity.
  - apply Qeq_alt in C. unfold Qeq, inject_Z in C. cbn [Qnum Qden] in C.
    unfold inject_Z.
    replace (Z.of_nat (List.length (r :: arr))) with 1%Z by lia.
    reflexivity.
  - exfalso. apply Qgt_alt in C. apply (Qlt_not_le _ _ C L).
Qed.

Lemma reviews_of_no_null (sp : Obj) (data : JsVal) :
  noNullItems (ratingsArray data) = true ->
  exists l, reviewUpdates host sp false data = Ret [SetReviews l].
Proof.
  intro H. unfold reviewUpdates.
  destruct (0 <? List.length (ratingsArray data))%nat; [|eexists; reflexivity].
  destruct (normalize_no_null _ H) as [l Hl]. rewrite Hl. simpl.
  rewrite String.eqb_refl. simpl. eexists. reflexivity.
Qed.

Lemma length_pos_iff (arr : list JsVal) :
  (0 <? List.length arr)%nat = true <-> arr <> [].
Proof.
  destruct arr; simpl; split; intro H; try congruence; try discriminate.
  reflexivity.
Qed.

(** X18: a [null] entry in the collection takes the handler to its [catch]
    block, whatever the [stats] object says: the cached rating is shown,
    with count 0 and no reviews. *)
Lemma null_item_falls_back (sp : Obj) (data : JsVal) (v : View) :
  noNullItems (ratingsArray data) = false ->
  ratingAvg (apply_updates v (onFulfilled host sp false data))
  = cachedRating host sp
  /\ ratingCount (apply_updates v (onFulfilled host sp false data)) = Fin 0
  /\ reviews (apply_updates v (onFulfilled host sp false data)) = [].
Proof.
  intro H.
  assert (Hne : (0 <? List.length (ratingsArray data))%nat = true).
  { destruct (ratingsArray data); [discriminate|reflexivity]. }
  assert (R : reviewUpdates host sp false data = Throw).
  { unfold reviewUpdates. rewrite Hne, (normalize_null _ H). reflexivity. }
  unfold onFulfilled. rewrite R.
  destruct (summaryUpdates host sp data) as [us|].
  - rewrite apply_updates_app. repeat split.
  - repeat split.
Qed.

(** C5, as amended: for a response that is not cancelled and whose
    collection has no [null] entry, the collection is the body itself when
    the body is an array, its [ratings] field when that is an array, and
    empty otherwise; the [stats] object supplies average and count when it
    is truthy and its [avg] or its [count] is a number (a missing one of the
    two counts as 0); failing that, a non-empty collection gives the mean of
    its scores, with a score that does not convert to a number taken
    as 0, and its length; and an empty one gives the entity's cached rating
    with count 0. *)
Theorem summary_of_response (sp : Obj) (data : JsVal) (v : View) :
  noNullItems (ratingsArray data) = true ->
  (forall l, data = JArr l -> ratingsArray data = l)
  /\ (forall l, isArray data = false -> prop data "ratings" = JArr l ->
                ratingsArray data = l)
  /\ (isArray data = false -> isArray (prop data "ratings") = false ->
      ratingsArray data = [])
  /\ (statsUsable data = true
      <-> truthy (prop data "stats") = true
          /\ (typeof (prop (prop data "stats") "avg") = TyNumber
              \/ typeof (prop (prop data "stats") "count") = TyNumber))
  /\ (statsUsable data = true ->
      ratingAvg (apply_updates v (onFulfilled host sp false data))
      = ToNumber host (prop (prop data "stats") "avg" ?? JNum (Fin 0))
      /\ ratingCount (apply_updates v (onFulfilled host sp false data))
         = ToNumber host (prop (prop data "stats") "count" ?? JNum (Fin 0)))
  /\ (statsUsable data = false -> ratingsArray data <> [] ->
      ratingAvg (apply_updates v (onFulfilled host sp false data))
      = meanScore host (ratingsArray data)
      /\ ratingCount (apply_updates v (onFulfilled host sp false data))
         = Fin (lengthNum (ratingsArray data)))
  /\ (statsUsable data = false -> ratingsArray data = [] ->
      ratingAvg (apply_updates v (onFulfilled host sp false data))
      = cachedRating host sp
      /\ ratingCount (apply_updates v (onFulfilled host sp false data)) = Fin 0).
Proof.
  intro Hnn.
  destruct (reviews_of_no_null sp data Hnn) as [l Hl].
  split; [intros l' E; subst data; reflexivity|].
  split; [intros l' Ha Hr; destruct data; try discriminate;
          unfold ratingsArray, optprop; rewrite Hr; reflexivity|].
  split; [intros Ha Hr; destruct data; try discriminate;
          unfold ratingsArray, optprop;
          destruct (prop _ "ratings"); try discriminate; reflexivity|].
  split.
  { unfold statsUsable, optprop. rewrite andb_true_iff, orb_true_iff.
    assert (T : forall x, JsType_eqb (typeof x) TyNumber = true
                          <-> typeof x = TyNumber).
    { intro x. destruct (typeof x); simpl; split; intro; congruence. }
    rewrite !T. reflexivity. }
  split; [|split].
  - intro Hs. unfold onFulfilled, summaryUpdates. rewrite Hs, Hl.
    split; reflexivity.
  - intros Hs Hne. unfold onFulfilled, summaryUpdates. rewrite Hs, Hl.
    apply length_pos_iff in Hne. rewrite Hne.
    rewrite (sumScores_no_null _ _ Hnn). simpl bind. cbv iota.
    apply length_pos_iff in Hne.
    rewrite (Qmax_one_length _ Hne). split; reflexivity.
  - intros Hs He. unfold onFulfilled, summaryUpdates. rewrite Hs, Hl, He.
    split; reflexivity.
Qed.

End Summary.

(** C5, as stated, fails: with a [stats] object present whose figures are
    text, the summary is computed from the records.  Two responses carrying
    that same [stats] object and different records get different summaries,
    each the mean and the number of its own records. *)
Lemma text_stats_not_preferred :
  prop (responseWith 1 textStats) "stats" = textStats
  /\ prop (responseWith 5 textStats) "stats" = textStats
  /\ ratingAvg (apply_updates blankView
                  (onFulfilled exampleHost spaceA false
                     (responseWith 1 textStats))) = Fin 1
  /\ ratingAvg (apply_updates blankView
                  (onFulfilled exampleHost spaceA false
                     (responseWith 5 textStats))) = Fin 5
  /\ ratingCount (apply_updates blankView
                    (onFulfilled exampleHost spaceA false
                       (responseWith 1 textStats))) = Fin 1.
Proof. repeat split. Qed.

Lemma summary_of_response_witness :
  ratingAvg (apply_updates blankView
               (onFulfilled exampleHost spaceA false
                  (responseWith 4 (JObj [("avg", JNum (Fin 3));
                                         ("count", JNum (Fin 7))]))))
  = Fin 3
  /\ ratingCount (apply_updates blankView
                    (onFulfilled exampleHost spaceA false
                       (responseWith 4 (JObj [("avg", JNum (Fin 3));
                                              ("count", JNum (Fin 7))]))))
     = Fin 7.
Proof.
  pose proof (summary_of_response exampleHost spaceA
                (responseWith 4 (JObj [("avg", JNum (Fin 3));
                                       ("count", JNum (Fin 7))]))
                blankView eq_refl) as H.
  destruct H as (_ & _ & _ & _ & H & _).
  exact (H eq_refl).
Defined.

(** ** RatingAggregator: cancellation *)

Section Cancellation.

Variable host : Host.

Lemma abortAt_length (k : nat) (reqs : list Request) :
  List.length (abortAt k reqs) = List.length reqs.
Proof.
  revert k. induction reqs as [|r reqs IH]; intros [|k]; simpl; auto.
Qed.

Lemma abortAt_same (k : nat) (reqs : list Request) (rq : Request) :
  nth_error (abortAt k reqs) k = Some rq -> req_aborted rq = true.
Proof.
  revert k. induction reqs as [|r reqs IH]; intros [|k] H; simpl in H;
    try discriminate.
  - injection H as H. subst rq. reflexivity.
  - apply (IH k H).
Qed.

Lemma abortAt_other (k j : nat) (reqs : list Request) :
  j <> k -> nth_error (abortAt k reqs) j = nth_error reqs j.
Proof.
  revert k j. induction reqs as [|r reqs IH]; intros [|k] [|j] H; simpl;
    try reflexivity; try congruence.
  apply IH. congruence.
Qed.

Lemma cleanup_length (c : Component) :
  List.length (cleanup c) = List.length (requests c).
Proof.
  unfold cleanup. destruct (active c); [apply abortAt_length|reflexivity].
Qed.

Lemma cleanup_all_aborted (c : Component) :
  Inv c ->
  forall (k : nat) (rq : Request),
    nth_error (cleanup c) k = Some rq -> req_aborted rq = true.
Proof.
  intros I k rq H. unfold cleanup in H.
  destruct (active c) as [a|] eqn:A.
  - destruct (Nat.eq_dec k a) as [E|E].
    + subst k. apply (abortAt_same a _ _ H).
    + rewrite (abortAt_other a k _ E) in H.
      apply (inv_others_aborted c I k rq H). rewrite A. congruence.
  - apply (inv_others_aborted c I k rq H). rewrite A. discriminate.
Qed.

Lemma Inv_runEffects (sp : Obj) (v : View) (reqs : list Request) :
  (forall (k : nat) (rq : Request),
      nth_error reqs k = Some rq -> req_aborted rq = true) ->
  Inv (runEffects host sp v reqs).
Proof.
  intro Hall. unfold runEffects.
  destruct (negb (truthy (field "_id" sp))).
  - constructor; simpl.
    + intros k rq H _. apply (Hall k rq H).
    + intros k H. discriminate.
    + intro H. discriminate.
  - constructor; simpl.
    + intros k rq H Hk.
      destruct (Nat.lt_ge_cases k (List.length reqs)) as [L|L].
      * rewrite nth_error_app1 in H by exact L. apply (Hall k rq H).
      * rewrite nth_error_app2 in H by exact L.
        destruct (k - List.length reqs)%nat as [|d] eqn:D.
        -- exfalso. apply Hk. f_equal. lia.
        -- simpl in H. destruct d; discriminate.
    + intros k H. injection H as H. subst k. rewrite length_app. simpl. lia.
    + intro H. discriminate.
Qed.

Lemma Inv_mount (sp : Obj) : Inv (mount host sp).
Proof.
  unfold mount. apply Inv_runEffects.
  intros [|k] rq H; discriminate.
Qed.

Lemma Inv_step (c : Component) (ev : Event) : Inv c -> Inv (step host c ev).
Proof.
  intro I. destruct ev as [sp|k data|k|]; simpl.
  - destruct (negb (mounted c)); [exact I|].
    destruct (sameDep _ _).
    + destruct I as [I1 I2 I3]. constructor; simpl; auto. discriminate.
    + apply Inv_runEffects, cleanup_all_aborted, I.
  - destruct (nth_error (requests c) k); [|exact I].
    destruct I as [I1 I2 I3]. constructor; simpl; auto.
  - destruct (nth_error (requests c) k); [|exact I].
    destruct I as [I1 I2 I3]. constructor; simpl; auto.
  - constructor; simpl.
    + intros k rq H _. apply (cleanup_all_aborted c I k rq H).
    + discriminate.
    + reflexivity.
Qed.

Lemma Inv_run (c : Component) (evs : list Event) : Inv c -> Inv (run host c evs).
Proof.
  revert c. induction evs as [|ev evs IH]; intros c I; [exact I|].
  simpl. apply IH, Inv_step, I.
Qed.

(** A cancelled request writes nothing, from either path. *)
Lemma aborted_writes_nothing (sp : Obj) (data : JsVal) :
  onFulfilled host sp true data = [] /\ onRejected host sp true = [].
Proof. split; reflexivity. Qed.

Lemma step_of_aborted (c : Component) (k : nat) (rq : Request) :
  nth_error (requests c) k = Some rq -> req_aborted rq = true ->
  (forall data : JsVal, step host c (Fulfil k data) = c)
  /\ step host c (Reject k) = c.
Proof.
  intros H A. split; [intro data|]; simpl; rewrite H, A;
    destruct c; reflexivity.
Qed.

Lemma requests_grow_step (c : Component) (ev : Event) :
  (List.length (requests c) <= List.length (requests (step host c ev)))%nat.
Proof.
  destruct ev as [sp|k data|k|]; simpl.
  - destruct (negb (mounted c)); [lia|].
    destruct (sameDep _ _); simpl; [lia|].
    unfold runEffects. destruct (negb (truthy _)); simpl.
    + rewrite cleanup_length. lia.
    + rewrite length_app, cleanup_length. lia.
  - destruct (nth_error (requests c) k); simpl; lia.
  - destruct (nth_error (requests c) k); simpl; lia.
  - rewrite cleanup_length. lia.
Qed.

Lemma requests_grow_run (c : Component) (evs : list Event) :
  (List.length (requests c) <= List.length (requests (run host c evs)))%nat.
Proof.
  revert c. induction evs as [|ev evs IH]; intro c; simpl; [lia|].
  pose proof (requests_grow_step c ev). pose proof (IH (step host c ev)).
  unfold run in *. lia.
Qed.

(** C1: along every sequence of selections, answers, failures and a
    teardown, a request that is older than the newest one issued, or any
    request once the component is torn down or the entity is deselected, is
    cancelled; a cancelled request writes nothing, from its success path or
    from its error path, so neither its answer nor its failure changes the
    rating average, the rating count or the review list (nor anything else
    of the component). *)
Theorem stale_fetch_never_updates (sp0 : Obj) (evs : list Event) (k : nat) :
  (S k < List.length (requests (run host (mount host sp0) evs)))%nat
  \/ mounted (run host (mount host sp0) evs) = false
  \/ active (run host (mount host sp0) evs) = None ->
  (forall rq : Request,
      nth_error (requests (run host (mount host sp0) evs)) k = Some rq ->
      req_aborted rq = true
      /\ (forall o : Settled,
             fetchRatings host (req_space rq) (req_aborted rq) o = []))
  /\ (forall data : JsVal,
        step host (run host (mount host sp0) evs) (Fulfil k data)
        = run host (mount host sp0) evs)
  /\ step host (run host (mount host sp0) evs) (Reject k)
     = run host (mount host sp0) evs
  /\ (forall data : JsVal,
        visible (step host (run host (mount host sp0) evs) (Fulfil k data))
        = visible (run host (mount host sp0) evs))
  /\ visible (step host (run host (mount host sp0) evs) (Reject k))
     = visible (run host (mount host sp0) evs).
Proof.
  set (c := run host (mount host sp0) evs).
  intro Hstale.
  assert (I : Inv c) by (apply Inv_run, Inv_mount).
  assert (Hk : active c <> Some k).
  { destruct Hstale as [Hold|[Hun|Hnone]].
    - intro A. apply (inv_active_newest c I) in A. lia.
    - rewrite (inv_unmounted c I Hun). discriminate.
    - rewrite Hnone. discriminate. }
  assert (Hab : forall rq, nth_error (requests c) k = Some rq ->
                           req_aborted rq = true).
  { intros rq H. apply (inv_others_aborted c I k rq H Hk). }
  assert (Hstep : (forall data, step host c (Fulfil k data) = c)
                  /\ step host c (Reject k) = c).
  { destruct (nth_error (requests c) k) as [rq|] eqn:E.
    - apply (step_of_aborted c k rq E (Hab rq eq_refl)).
    - split; [intro data|]; simpl; rewrite E; reflexivity. }
  destruct Hstep as [Hf Hr].
  split.
  { intros rq H. rewrite (Hab rq H). split; [reflexivity|].
    intros [data|]; reflexivity. }
  split; [exact Hf|]. split; [exact Hr|].
  split; [intro data; rewrite Hf; reflexivity|].
  rewrite Hr. reflexivity.
Qed.

(** Selection change and teardown cancel the request in flight. *)
Lemma selection_change_cancels (c : Component) (sp : Obj) (k : nat) (rq : Request) :
  Inv c -> mounted c = true ->
  sameDep (field "_id" (cur_space c)) (field "_id" sp) = false ->
  active c = Some k ->
  nth_error (requests (step host c (Select sp))) k = Some rq ->
  req_aborted rq = true.
Proof.
  intros I M D A H. simpl in H. rewrite M, D in H. simpl in H.
  pose proof (inv_active_newest c I k A) as L.
  assert (H' : nth_error (cleanup c) k = Some rq).
  { unfold runEffects in H. destruct (negb (truthy _)); simpl in H.
    - exact H.
    - rewrite nth_error_app1 in H by (rewrite cleanup_length; lia). exact H. }
  apply (cleanup_all_aborted c I k rq H').
Qed.

Lemma teardown_cancels (c : Component) (k : nat) (rq : Request) :
  Inv c ->
  nth_error (requests (step host c Unmount)) k = Some rq ->
  req_aborted rq = true.
Proof.
  intros I H. simpl in H. apply (cleanup_all_aborted c I k rq H).
Qed.

End Cancellation.

(** Selecting A and then B at once: A's answer, arriving after B's, is
    dropped, and the ratings shown are B's. *)
Example late_answer_of_earlier_selection_is_dropped :
  let answerA := JArr [JObj [("score", JNum (Fin 5))]] in
  let answerB := JArr [JObj [("score", JNum (Fin 3))]] in
  let c := run exampleHost (mount exampleHost spaceA)
             [Select spaceB; Fulfil 1 answerB; Fulfil 0 answerA] in
  ratingAvg (view c) = Fin 3 /\ ratingCount (view c) = Fin 1
  /\ List.length (reviews (view c)) = 1%nat
  /\ visible (run exampleHost (mount exampleHost spaceA) [Select spaceB])
     = (Fin 2, Fin 0, []).
Proof. vm_compute. repeat split. Qed.

Lemma stale_fetch_never_updates_witness :
  visible (step exampleHost
             (run exampleHost (mount exampleHost spaceA) [Select spaceB])
             (Fulfil 0 (JArr [JObj [("score", JNum (Fin 5))]])))
  = visible (run exampleHost (mount exampleHost spaceA) [Select spaceB])
  /\ visible (step exampleHost
                (run exampleHost (mount exampleHost spaceA) [Select spaceB])
                (Reject 0))
     = visible (run exampleHost (mount exampleHost spaceA) [Select spaceB]).
Proof.
  assert (H : (1 < List.length
                     (requests (run exampleHost (mount exampleHost spaceA)
                                  [Select spaceB])))%nat
              \/ mounted (run exampleHost (mount exampleHost spaceA)
                            [Select spaceB]) = false
              \/ active (run exampleHost (mount exampleHost spaceA)
                           [Select spaceB]) = None).
  { left. vm_compute. lia. }
  pose proof (stale_fetch_never_updates exampleHost spaceA [Select spaceB]
                0%nat H) as (_ & _ & _ & Hf & Hr).
  split; [apply Hf | exact Hr].
Defined.

(** ** Worked booking attempts *)

Lemma reentry_after_phone_verification_witness :
  handleBookNow exampleHost
    (slot morning noon (Some verifiedUser) (Some [("phoneVerified", JBool false)]))
    MouseClick
  = [StopPropagation; SetShowPhoneModal true]
  /\ handoffs
       (onPhoneVerifySuccess exampleHost
          (withPhoneVerified (JBool true)
             (slot morning noon (Some verifiedUser)
                (Some [("phoneVerified", JBool false)]))))
     = [handoff exampleHost
          (slot morning noon (Some verifiedUser)
             (Some [("phoneVerified", JBool false)]))
          verifiedUser].
Proof.
  pose proof (reentry_after_phone_verification exampleHost
                (slot morning noon (Some verifiedUser)
                   (Some [("phoneVerified", JBool false)]))
                verifiedUser (JBool true)
                eq_refl eq_refl eq_refl eq_refl) as H.
  split; apply H.
Defined.

Lemma gate_reads_auth_context_flag_witness :
  handleBookNow exampleHost
    (slot morning noon
       (Some (("phoneVerified", JBool false) :: verifiedUser))
       (Some [("phoneVerified", JBool true)]))
    MouseClick
  = handleBookNow exampleHost
      (slot morning noon (Some verifiedUser)
         (Some [("phoneVerified", JBool true)]))
      MouseClick.
Proof.
  apply (gate_reads_auth_context_flag exampleHost
           (slot morning noon
              (Some (("phoneVerified", JBool false) :: verifiedUser))
              (Some [("phoneVerified", JBool true)]))
           (slot morning noon (Some verifiedUser)
              (Some [("phoneVerified", JBool true)]))
           MouseClick eq_refl eq_refl eq_refl eq_refl).
  intros k Hk. simpl.
  destruct (String.eqb k "phoneVerified") eqn:E; [|reflexivity].
  apply String.eqb_eq in E. contradiction.
Defined.

(** The payload of the worked attempt: 2.5 hours at 100 per hour. *)
Example worked_handoff :
  handoffs (handleBookNow exampleHost
              (slot morning noon (Some verifiedUser) None) MouseClick)
  = [handoff exampleHost (slot morning noon (Some verifiedUser) None)
       verifiedUser]
  /\ Handoff.spaceId
       (handoff exampleHost (slot morning noon (Some verifiedUser) None)
          verifiedUser) = JStr "p1"
  /\ Handoff.userId
       (handoff exampleHost (slot morning noon (Some verifiedUser) None)
          verifiedUser) = JStr "u1"
  /\ Handoff.totalAmount
       (handoff exampleHost (slot morning noon (Some verifiedUser) None)
          verifiedUser) = JNum (Fin (25000 # 100))
  /\ Handoff.totalAmount
       (handoff exampleHost (slot TimeNull TimeUndefined (Some verifiedUser) None)
          verifiedUser) = JNull
  /\ Handoff.durationHours
       (handoff exampleHost (slot TimeNull TimeUndefined (Some verifiedUser) None)
          verifiedUser) = JNull.
Proof. vm_compute. repeat split. Qed.

(** * Further properties of the component *)

(** ** Star row *)

Lemma Qltb_inject (a b : Z) : Qltb (inject_Z a) (inject_Z b) = (a <? b)%Z.
Proof.
  destruct (Z.ltb_spec a b) as [H|H].
  - apply Qltb_iff. rewrite <- Zlt_Qlt. exact H.
  - apply Qltb_false_iff. rewrite <- Zle_Qle. exact H.
Qed.

Lemma Qeq_bool_inject (a b : Z) : Qeq_bool (inject_Z a) (inject_Z b) = (a =? b)%Z.
Proof.
  destruct (Z.eqb_spec a b) as [H|H].
  - subst b. apply Qeq_bool_iff. reflexivity.
  - destruct (Qeq_bool (inject_Z a) (inject_Z b)) eqn:E; [|reflexivity].
    apply Qeq_bool_iff in E. unfold Qeq in E. simpl in E. lia.
Qed.

(** The row for a rating whose floor is [k], [b] telling whether the
    fractional part reaches one half. *)
Lemma getStars_fin (q : Q) :
  getStars (Fin q)
  = map (fun i : Z =>
           if (i <? Qfloor q)%Z then StarFull
           else if (i =? Qfloor q)%Z
                   && Qle_bool (1 # 2) (q - inject_Z (Qtrunc q))
           then StarHalf
           else StarEmpty)
        [0; 1; 2; 3; 4]%Z.
Proof.
  unfold getStars. cbn [num_floor num_rem1 num_ge num_lt num_eq map].
  rewrite !Qltb_inject, !Qeq_bool_inject. reflexivity.
Qed.

Ltac settle_star_tests k :=
  repeat match goal with
         | |- context [(?a <? k)%Z] => destruct (Z.ltb_spec a k); try lia
         | |- context [(?a =? k)%Z] => destruct (Z.eqb_spec a k); try lia
         end.

Lemma floor_cases (k : Z) :
  (k < 0 \/ k = 0 \/ k = 1 \/ k = 2 \/ k = 3 \/ k = 4 \/ 5 <= k)%Z.
Proof. lia. Qed.

(** X1: whatever the rating, [getStars] returns five stars: full ones
    first, then at most one half star, then empty ones. *)
Theorem getStars_shape (rating : num) :
  exists f h : nat,
    (h <= 1)%nat /\ (f + h <= 5)%nat
    /\ getStars rating
       = repeat StarFull f ++ repeat StarHalf h
         ++ repeat StarEmpty (5 - f - h).
Proof.
  destruct rating as [|[|]|q].
  - exists 0%nat, 0%nat. repeat split; lia.
  - exists 0%nat, 0%nat. repeat split; lia.
  - exists 5%nat, 0%nat. repeat split; lia.
  - rewrite getStars_fin.
    generalize (Qle_bool (1 # 2) (q - inject_Z (Qtrunc q))). intro b.
    generalize (Qfloor q). intro k. cbn [map].
    destruct (floor_cases k) as [H|[H|[H|[H|[H|[H|H]]]]]].
    + exists 0%nat, 0%nat. split; [lia|]. split; [lia|].
      settle_star_tests k. reflexivity.
    + subst k. exists 0%nat, (if b then 1 else 0)%nat.
      destruct b; repeat split; simpl; lia.
    + subst k. exists 1%nat, (if b then 1 else 0)%nat.
      destruct b; repeat split; simpl; lia.
    + subst k. exists 2%nat, (if b then 1 else 0)%nat.
      destruct b; repeat split; simpl; lia.
    + subst k. exists 3%nat, (if b then 1 else 0)%nat.
      destruct b; repeat split; simpl; lia.
    + subst k. exists 4%nat, (if b then 1 else 0)%nat.
      destruct b; repeat split; simpl; lia.
    + exists 5%nat, 0%nat. split; [lia|]. split; [lia|].
      settle_star_tests k. reflexivity.
Qed.

Lemma Qtrunc_nonneg (q : Q) : 0 <= q -> Qtrunc q = Qfloor q.
Proof.
  intro H. unfold Qtrunc. apply Qle_bool_iff in H. rewrite H. reflexivity.
Qed.

(** X2: for a rating between 0 and 5 the stars never overstate the rating,
    and understate it by less than half a star. *)
Theorem getStars_value (q : Q) :
  0 <= q -> q <= 5 ->
  starValue (getStars (Fin q)) <= q
  /\ q < starValue (getStars (Fin q)) + (1 # 2).
Proof.
  intros H0 H5.
  rewrite getStars_fin, (Qtrunc_nonneg q H0).
  pose proof (Qfloor_le q) as Hlo.
  pose proof (Qlt_floor q) as Hhi. rewrite inject_Z_plus in Hhi.
  assert (K0 : (0 <= Qfloor q)%Z).
  { change 0%Z with (Qfloor 0). apply Qfloor_resp_le, H0. }
  assert (K5 : (Qfloor q <= 5)%Z).
  { change 5%Z with (Qfloor 5). apply Qfloor_resp_le, H5. }
  destruct (Qle_bool (1 # 2) (q - inject_Z (Qfloor q))) eqn:B.
  - apply Qle_bool_iff in B. revert Hlo Hhi B.
    generalize (Qfloor q) K0 K5. intros k K0' K5'.
    assert (C : (k = 0 \/ k = 1 \/ k = 2 \/ k = 3 \/ k = 4 \/ k = 5)%Z) by lia.
    destruct C as [C|[C|[C|[C|[C|C]]]]]; subst k; simpl; intros;
      unfold inject_Z in *; lra.
  - assert (B' : q - inject_Z (Qfloor q) < 1 # 2).
    { apply Qltb_iff. unfold Qltb. rewrite B. reflexivity. }
    revert Hlo Hhi B'.
    generalize (Qfloor q) K0 K5. intros k K0' K5'.
    assert (C : (k = 0 \/ k = 1 \/ k = 2 \/ k = 3 \/ k = 4 \/ k = 5)%Z) by lia.
    destruct C as [C|[C|[C|[C|[C|C]]]]]; subst k; simpl; intros;
      unfold inject_Z in *; lra.
Qed.

Lemma getStars_value_witness :
  starValue (getStars (Fin (9 # 2))) <= 9 # 2
  /\ 9 # 2 < starValue (getStars (Fin (9 # 2))) + (1 # 2).
Proof.
  apply (getStars_value (9 # 2)); literal_order.
Defined.

(** X3: a rating that is not a number, or is negative, shows five empty
    stars; a rating of 5 or more shows five full ones. *)
Theorem getStars_out_of_range :
  getStars NaN = repeat StarEmpty 5
  /\ getStars (Inf true) = repeat StarEmpty 5
  /\ getStars (Inf false) = repeat StarFull 5
  /\ (forall q : Q, q < 0 -> getStars (Fin q) = repeat StarEmpty 5)
  /\ (forall q : Q, 5 <= q -> getStars (Fin q) = repeat StarFull 5).
Proof.
  split; [reflexivity|]. split; [reflexivity|]. split; [reflexivity|].
  split; intros q H; rewrite getStars_fin.
  - assert (K : (Qfloor q < 0)%Z).
    { pose proof (Qfloor_le q) as L.
      assert (L0 : inject_Z (Qfloor q) < inject_Z 0)
        by (unfold inject_Z at 2; lra).
      rewrite <- Zlt_Qlt in L0. exact L0. }
    revert K. generalize (Qle_bool (1 # 2) (q - inject_Z (Qtrunc q))).
    generalize (Qfloor q). intros k b K. cbn [map].
    settle_star_tests k. reflexivity.
  - assert (K : (5 <= Qfloor q)%Z).
    { change 5%Z with (Qfloor 5). apply Qfloor_resp_le, H. }
    revert K. generalize (Qle_bool (1 # 2) (q - inject_Z (Qtrunc q))).
    generalize (Qfloor q). intros k b K. cbn [map].
    settle_star_tests k. reflexivity.
Qed.

(** ** Carousel *)

Lemma nextIndex_in_range (n i : Z) :
  (0 <= i < n)%Z ->
  (0 <= nextIndex n i < n)%Z
  /\ nextIndex n i = (if (i + 1 =? n)%Z then 0 else i + 1)%Z.
Proof.
  intro H. unfold nextIndex. rewrite Z.rem_mod_nonneg by lia.
  destruct (Z.eqb_spec (i + 1) n) as [E|E].
  - rewrite E, Z.mod_same by lia. lia.
  - rewrite Z.mod_small by lia. lia.
Qed.

Lemma prevIndex_in_range (n i : Z) :
  (0 <= i < n)%Z ->
  (0 <= prevIndex n i < n)%Z
  /\ prevIndex n i = (if (i =? 0)%Z then n - 1 else i - 1)%Z.
Proof.
  intro H. unfold prevIndex. rewrite Z.rem_mod_nonneg by lia.
  destruct (Z.eqb_spec i 0) as [E|E].
  - subst i. rewrite Z.mod_small by lia. lia.
  - replace (i - 1 + n)%Z with (i - 1 + 1 * n)%Z by lia.
    rewrite Z_mod_plus_full, Z.mod_small by lia. lia.
Qed.

Lemma arrowClick_index (imgs : list JsVal) (a : Arrow) (v : View) :
  (0 <= currentImageIndex v < Z.of_nat (List.length imgs))%Z ->
  (0 <= currentImageIndex (arrowClick imgs a v) < Z.of_nat (List.length imgs))%Z.
Proof.
  intro H. unfold arrowClick.
  destruct (1 <? List.length imgs)%nat; [|exact H].
  destruct a; simpl.
  - apply nextIndex_in_range, H.
  - apply prevIndex_in_range, H.
Qed.

(** X4: starting from an index inside the image list, no sequence of
    clicks on the two arrows takes the index outside it, and the picture
    shown is always one of the images. *)
Theorem carousel_stays_in_range (imgs : list JsVal) (clicks : list Arrow)
        (v : View) :
  (0 <= currentImageIndex v < Z.of_nat (List.length imgs))%Z ->
  (0 <= currentImageIndex (fold_left (fun w a => arrowClick imgs a w) clicks v)
   < Z.of_nat (List.length imgs))%Z
  /\ In (shownImage imgs (fold_left (fun w a => arrowClick imgs a w) clicks v))
        imgs.
Proof.
  intro H.
  assert (R : (0 <= currentImageIndex
                      (fold_left (fun w a => arrowClick imgs a w) clicks v)
               < Z.of_nat (List.length imgs))%Z).
  { revert v H. induction clicks as [|a clicks IH]; intros v H; [exact H|].
    simpl. apply IH, arrowClick_index, H. }
  split; [exact R|].
  unfold shownImage.
  destruct (Z.ltb_spec
              (currentImageIndex
                 (fold_left (fun w a => arrowClick imgs a w) clicks v)) 0);
    [lia|].
  apply nth_In. lia.
Qed.

(** X5: on an index inside the image list the two arrows undo each other,
    and neither changes anything but the index and the loaded flag. *)
Theorem arrows_are_inverse (imgs : list JsVal) (v : View) :
  (0 <= currentImageIndex v < Z.of_nat (List.length imgs))%Z ->
  currentImageIndex (arrowClick imgs ArrowPrev (arrowClick imgs ArrowNext v))
  = currentImageIndex v
  /\ currentImageIndex (arrowClick imgs ArrowNext (arrowClick imgs ArrowPrev v))
     = currentImageIndex v
  /\ (forall a : Arrow,
         ratingAvg (arrowClick imgs a v) = ratingAvg v
         /\ ratingCount (arrowClick imgs a v) = ratingCount v
         /\ reviews (arrowClick imgs a v) = reviews v).
Proof.
  intro H. unfold arrowClick.
  destruct (1 <? List.length imgs)%nat; [|repeat split].
  cbn [apply_updates fold_left apply_update currentImageIndex].
  set (n := Z.of_nat (List.length imgs)) in *.
  destruct (nextIndex_in_range n _ H) as [Rn En].
  destruct (prevIndex_in_range n _ H) as [Rp Ep].
  destruct (prevIndex_in_range n _ Rn) as [_ Epn].
  destruct (nextIndex_in_range n _ Rp) as [_ Enp].
  split; [|split].
  - rewrite Epn, En.
    destruct (Z.eqb_spec (currentImageIndex v + 1) n);
      [rewrite Z.eqb_refl; lia|].
    destruct (Z.eqb_spec (currentImageIndex v + 1) 0); lia.
  - rewrite Enp, Ep.
    destruct (Z.eqb_spec (currentImageIndex v) 0).
    + replace (n - 1 + 1 =? n)%Z with true by (symmetry; apply Z.eqb_eq; lia).
      lia.
    + destruct (Z.eqb_spec (currentImageIndex v - 1 + 1) n); lia.
  - intros []; repeat split.
Qed.

Lemma carousel_stays_in_range_witness :
  In (shownImage [JStr "a"; JStr "b"; JStr "c"]
        (fold_left (fun w a => arrowClick [JStr "a"; JStr "b"; JStr "c"] a w)
           [ArrowPrev; ArrowPrev; ArrowNext; ArrowPrev] blankView))
     [JStr "a"; JStr "b"; JStr "c"].
Proof.
  apply (carousel_stays_in_range [JStr "a"; JStr "b"; JStr "c"]
           [ArrowPrev; ArrowPrev; ArrowNext; ArrowPrev] blankView).
  simpl. lia.
Defined.

Lemma arrows_are_inverse_witness :
  currentImageIndex
    (arrowClick [JStr "a"; JStr "b"; JStr "c"] ArrowPrev
       (arrowClick [JStr "a"; JStr "b"; JStr "c"] ArrowNext blankView))
  = currentImageIndex blankView.
Proof.
  apply (arrows_are_inverse [JStr "a"; JStr "b"; JStr "c"] blankView).
  simpl. lia.
Defined.

(** ** ImageResolver, continued *)

Lemma prefix_app (p a b : string) :
  String.prefix p a = true -> String.prefix p (a ++ b)%string = true.
Proof.
  revert p. induction a as [|c' a IH]; intros p H.
  - destruct p; [destruct b; reflexivity|discriminate].
  - destruct p as [|c p]; [reflexivity|].
    simpl in *. destruct (Ascii.ascii_dec c c'); [apply IH, H|discriminate].
Qed.

Lemma append_nonempty_r (a t : string) : t <> "" -> (a ++ t)%string <> "".
Proof.
  intro H. destruct a; simpl; [exact H|discriminate].
Qed.

Lemma truthy_JStr (t : string) : truthy (JStr t) = true <-> t <> "".
Proof.
  simpl. rewrite negb_true_iff. split; intro H.
  - intro E. subst t. discriminate.
  - apply String.eqb_neq, H.
Qed.

Lemma mapM_length {A B : Type} (f : A -> Res B) (l : list A) (l' : list B) :
  mapM f l = Ret l' -> List.length l' = List.length l.
Proof.
  revert l'. induction l as [|x l IH]; intros l' H; simpl in H.
  - injection H as H. subst l'. reflexivity.
  - destruct (f x) as [y|]; simpl in H; [|discriminate].
    destruct (mapM f l) as [ys|]; simpl in H; [|discriminate].
    injection H as H. subst l'. simpl. f_equal. apply IH. reflexivity.
Qed.

Section ImageResolverMore.

Variable host : Host.

Lemma makeUrl_string (t : string) :
  t <> "" ->
  exists u : string, makeUrl host (JStr t) = Ret (JStr u) /\ u <> "".
Proof.
  intro H. unfold makeUrl.
  rewrite (proj2 (truthy_JStr t) H). cbn [negb].
  destruct (startsWith "http://" t || startsWith "https://" t);
    [exists t; auto|].
  destruct (startsWith "/" t);
    [eexists; split; [reflexivity|apply append_nonempty_r, H]|].
  destruct (negb (String.eqb (CLOUD_NAME host) "") && includesSlash t).
  - eexists. split; [reflexivity|]. simpl. discriminate.
  - eexists. split; [reflexivity|].
    apply append_nonempty_r, append_nonempty_r, H.
Qed.

Lemma mapM_makeUrl_strings (ts : list string) :
  Forall (fun t => t <> "") ts ->
  exists us : list string,
    mapM (makeUrl host) (map JStr ts) = Ret (map JStr us)
    /\ List.length us = List.length ts
    /\ Forall (fun u => u <> "") us.
Proof.
  induction 1 as [|t ts Ht _ IH].
  - exists []. repeat split. constructor.
  - destruct IH as (us & Hus & Hlen & Hne).
    destruct (makeUrl_string t Ht) as (u & Hu & Hn).
    exists (u :: us). cbn [map mapM]. rewrite Hu, Hus. simpl.
    repeat split; [f_equal; exact Hlen|constructor; assumption].
Qed.

Lemma filter_truthy_strings (us : list string) :
  Forall (fun u => u <> "") us ->
  filter truthy (map JStr us) = map JStr us.
Proof.
  induction 1 as [|u us Hu _ IH]; [reflexivity|].
  cbn [map filter]. rewrite (proj2 (truthy_JStr u) Hu), IH. reflexivity.
Qed.

(** X6: a non-empty string always resolves, to a non-empty address, and a
    list of such strings gives one image each, in order, without the
    placeholder. *)
Theorem images_of_strings (sp : Obj) (ts : list string) :
  ts <> [] -> Forall (fun t => t <> "") ts ->
  field "photos" sp = JArr (map JStr ts) ->
  (forall t : string, In t ts ->
      exists u : string, makeUrl host (JStr t) = Ret (JStr u) /\ u <> "")
  /\ exists us : list string,
       images host sp = Ret (map JStr us)
       /\ List.length us = List.length ts
       /\ mapM (makeUrl host) (map JStr ts) = Ret (map JStr us).
Proof.
  intros Hne Hall Hf. split.
  - intros t Ht. apply makeUrl_string.
    rewrite Forall_forall in Hall. apply Hall, Ht.
  - destruct (mapM_makeUrl_strings ts Hall) as (us & Hus & Hlen & Hn).
    exists us. split; [|split; assumption].
    unfold images. rewrite Hf.
    destruct ts as [|t ts]; [contradiction|].
    cbn [map] in *. rewrite Hus. simpl bind.
    rewrite (filter_truthy_strings us Hn). reflexivity.
Qed.

(** X7: [makeUrl] throws exactly on an object without a usable [url] whose
    [path] is truthy and not a string. *)
Theorem makeUrl_throws_iff (p : JsVal) :
  makeUrl host p = Throw
  <-> truthy (prop p "url") = false
      /\ truthy (prop p "path") = true
      /\ typeof (prop p "path") <> TyString.
Proof.
  unfold makeUrl.
  destruct p as [| |b|n|t|l|o]; cbn [prop].
  - split; [discriminate|intros (_ & H & _); discriminate].
  - split; [discriminate|intros (_ & H & _); discriminate].
  - split; [destruct (negb _); discriminate|intros (_ & H & _); discriminate].
  - split; [destruct (negb _); discriminate|intros (_ & H & _); discriminate].
  - split; [|intros (_ & H & _); discriminate].
    destruct (negb _); [discriminate|].
    destruct (_ || _); [discriminate|].
    destruct (startsWith "/" t); [discriminate|].
    destruct (_ && _); discriminate.
  - split; [discriminate|intros (_ & H & _); discriminate].
  - cbn [truthy negb].
    destruct (truthy (field "url" o)).
    + split; [discriminate|intros (H & _); discriminate].
    + destruct (truthy (field "path" o)) eqn:P.
      * destruct (field "path" o) as [| |b|n|t|l|o'];
          cbn [pathStartsWith bind typeof];
          try (split; [intros _; repeat split; discriminate|reflexivity]).
        split; [|intros (_ & _ & H); exfalso; apply H; reflexivity].
        destruct (startsWith "http://" t); cbn [bind]; [discriminate|].
        destruct (startsWith "https://" t); cbn [bind]; [discriminate|].
        destruct (startsWith "/" t); [discriminate|].
        destruct (truthy (field "filename" o)); discriminate.
      * split; [|intros (_ & H & _); discriminate].
        cbn [bind]. destruct (truthy (field "filename" o)); discriminate.
Qed.

Lemma makeUrl_absolute (t : string) :
  startsWith "http://" t || startsWith "https://" t = true ->
  makeUrl host (JStr t) = Ret (JStr t).
Proof.
  intro H. unfold makeUrl.
  assert (N : t <> "").
  { intro E. subst t. discriminate. }
  rewrite (proj2 (truthy_JStr t) N). cbn [negb]. rewrite H. reflexivity.
Qed.

(** X8: when the API base is an http or https address, the address a
    string resolves to is absolute and resolves to itself. *)
Theorem makeUrl_idempotent_on_strings (t : string) :
  startsWith "http://" (API_BASE host) || startsWith "https://" (API_BASE host)
  = true ->
  t <> "" ->
  exists u : string,
    makeUrl host (JStr t) = Ret (JStr u)
    /\ startsWith "http://" u || startsWith "https://" u = true
    /\ makeUrl host (JStr u) = Ret (JStr u).
Proof.
  intros Hbase Ht.
  assert (Hpre : forall rest : string,
             startsWith "http://" (API_BASE host ++ rest)%string
             || startsWith "https://" (API_BASE host ++ rest)%string = true).
  { intro rest. apply orb_true_iff. apply orb_true_iff in Hbase.
    destruct Hbase as [H|H]; [left|right]; apply prefix_app, H. }
  assert (G : exists u : string,
             makeUrl host (JStr t) = Ret (JStr u)
             /\ startsWith "http://" u || startsWith "https://" u = true).
  { unfold makeUrl. rewrite (proj2 (truthy_JStr t) Ht). cbn [negb].
    destruct (startsWith "http://" t || startsWith "https://" t) eqn:A;
      [exists t; auto|].
    destruct (startsWith "/" t); [eexists; split; [reflexivity|apply Hpre]|].
    destruct (negb (String.eqb (CLOUD_NAME host) "") && includesSlash t).
    - eexists. split; reflexivity.
    - eexists. split; [reflexivity|apply Hpre]. }
  destruct G as (u & Hu & Ha).
  exists u. split; [exact Hu|]. split; [exact Ha|].
  apply makeUrl_absolute, Ha.
Qed.

Lemma single_photo_branch (v : JsVal) (l : list JsVal) :
  (if truthy v
   then (u <- makeUrl host v ;; Ret (filter truthy [u]))
   else Ret [JStr placeholder]) = Ret l ->
  (forall u : JsVal, In u l -> truthy u = true)
  /\ (truthy v = false -> l = [JStr placeholder])
  /\ (List.length l <= 1)%nat.
Proof.
  destruct (truthy v) eqn:T.
  - destruct (makeUrl host v) as [u0|]; cbn [bind]; [|discriminate].
    intro H. injection H as H. subst l. cbn [filter].
    destruct (truthy u0) eqn:T0.
    + split; [|split; [discriminate|simpl; lia]].
      intros u [Hu|[]]. subst u. exact T0.
    + split; [|split; [discriminate|simpl; lia]].
      intros u [].
  - intro H. injection H as H. subst l.
    split; [|split; [reflexivity|simpl; lia]].
    intros u [Hu|[]]. subst u. reflexivity.
Qed.

(** X9: whenever [images] returns, every entry of the list is truthy; a
    falsy [photos] gives the placeholder alone; an array gives at most one
    entry per item and any other value at most one entry. *)
Theorem images_entries (sp : Obj) (l : list JsVal) :
  images host sp = Ret l ->
  (forall u : JsVal, In u l -> truthy u = true)
  /\ (truthy (field "photos" sp) = false -> l = [JStr placeholder])
  /\ (forall items : list JsVal,
         field "photos" sp = JArr items ->
         (List.length l <= List.length items)%nat)
  /\ (isArray (field "photos" sp) = false -> (List.length l <= 1)%nat).
Proof.
  intro H. unfold images in H.
  destruct (field "photos" sp) as [| |b|n|t|items|o] eqn:E;
    try (match type of E with
         | _ = ?v => destruct (single_photo_branch v l H) as (H1 & H2 & H3)
         end;
         split; [exact H1|]; split; [exact H2|];
         split; [intros its Hits; discriminate|intros _; exact H3]).
  destruct items as [|x rest].
  - cbv in H. injection H as H. subst l.
    split; [intros u []|]. split; [discriminate|].
    split; [intros its _; simpl; lia|discriminate].
  - cbv beta iota zeta in H.
    destruct (mapM (makeUrl host) (x :: rest)) as [urls|] eqn:M;
      cbn [bind] in H; [|discriminate].
    injection H as H. subst l.
    split; [intros u Hu; apply filter_In in Hu; apply Hu|].
    split; [discriminate|].
    split; [|discriminate].
    intros its Hits. injection Hits as Hits. subst its.
    rewrite <- (mapM_length _ _ _ M). apply filter_length_le.
Qed.

End ImageResolverMore.

Lemma images_of_strings_witness :
  exists us : list string,
    images exampleHost [("photos", JArr (map JStr ["a.jpg"; "/b.png"]))]
    = Ret (map JStr us)
    /\ List.length us = List.length ["a.jpg"; "/b.png"]
    /\ mapM (makeUrl exampleHost) (map JStr ["a.jpg"; "/b.png"])
       = Ret (map JStr us).
Proof.
  apply (images_of_strings exampleHost
           [("photos", JArr (map JStr ["a.jpg"; "/b.png"]))]
           ["a.jpg"; "/b.png"]).
  - discriminate.
  - repeat constructor; discriminate.
  - reflexivity.
Defined.

Lemma makeUrl_idempotent_on_strings_witness :
  exists u : string,
    makeUrl exampleHost (JStr "lot/7.jpg") = Ret (JStr u)
    /\ startsWith "http://" u || startsWith "https://" u = true
    /\ makeUrl exampleHost (JStr u) = Ret (JStr u).
Proof.
  apply (makeUrl_idempotent_on_strings exampleHost "lot/7.jpg").
  - reflexivity.
  - discriminate.
Defined.

Lemma images_entries_witness :
  (forall u : JsVal,
      In u [JStr "https://x.test/uploads/abc.jpg"] -> truthy u = true)
  /\ (truthy (field "photos" [("photos", JStr "abc.jpg")]) = false ->
      [JStr "https://x.test/uploads/abc.jpg"] = [JStr placeholder])
  /\ (forall items : list JsVal,
         field "photos" [("photos", JStr "abc.jpg")] = JArr items ->
         (List.length [JStr "https://x.test/uploads/abc.jpg"]
          <= List.length items)%nat)
  /\ (isArray (field "photos" [("photos", JStr "abc.jpg")]) = false ->
      (List.length [JStr "https://x.test/uploads/abc.jpg"] <= 1)%nat).
Proof.
  apply (images_entries exampleHost [("photos", JStr "abc.jpg")]).
  reflexivity.
Defined.

(** ** PriceCalculator, continued *)

Section PriceCalculatorMore.

Variable host : Host.

Lemma clamp_not_finite (d : num) : num_isFinite d = false -> clamp d = 0.
Proof. destruct d; simpl; intro H; [reflexivity|reflexivity|discriminate]. Qed.

Lemma Qltb_irrefl_eq (x y : Q) : x == y -> Qltb y x = false.
Proof. intro H. apply Qltb_false_iff. rewrite H. apply Qle_refl. Qed.

(** X10: whatever the entity holds, the percentage reported lies between 0
    and 100, and is 0 when the discount read is not a finite number; with a
    percentage of 0 no discount is flagged and, for a finite base price,
    the discounted price is the base price as reported. *)
Theorem discountPercent_range (s : Obj) :
  0 <= discountPercent (computeDiscountedPrice host s)
  /\ discountPercent (computeDiscountedPrice host s) <= 100
  /\ (num_isFinite (discountNum host (rawDiscount s)) = false ->
      discountPercent (computeDiscountedPrice host s) = 0)
  /\ (discountPercent (computeDiscountedPrice host s) == 0 ->
      hasDiscount (computeDiscountedPrice host s) = false
      /\ (num_isFinite (rawBase host s) = true ->
          discountedPrice (computeDiscountedPrice host s)
          = basePrice (computeDiscountedPrice host s))).
Proof.
  change (discountPercent (computeDiscountedPrice host s))
    with (clamp (discountNum host (rawDiscount s))).
  pose proof (clamp_range (discountNum host (rawDiscount s))) as [C0 C100].
  split; [exact C0|]. split; [exact C100|].
  split; [apply clamp_not_finite|].
  intro Hz. split.
  - unfold computeDiscountedPrice. cbn [hasDiscount].
    rewrite (Qltb_irrefl_eq _ _ Hz). reflexivity.
  - intro Hf. destruct (rawBase host s) as [| |b] eqn:Hb; try discriminate.
    rewrite (discounted_of_finite_base host s b Hb).
    unfold computeDiscountedPrice. cbn [basePrice]. rewrite Hb.
    cbn [toFixed2]. f_equal. apply round2_wd. rewrite Hz. field.
Qed.

(** X11: of two entities with the same finite base price, the one with the
    larger percentage has the discounted price that is not larger; neither
    price is negative. *)
Theorem discountedPrice_antitone (s1 s2 : Obj) (b : Q) :
  rawBase host s1 = Fin b -> rawBase host s2 = Fin b -> 0 <= b ->
  discountPercent (computeDiscountedPrice host s1)
  <= discountPercent (computeDiscountedPrice host s2) ->
  exists p1 p2 : Q,
    discountedPrice (computeDiscountedPrice host s1) = Fin p1
    /\ discountedPrice (computeDiscountedPrice host s2) = Fin p2
    /\ 0 <= p2 /\ p2 <= p1.
Proof.
  intros H1 H2 Hb Hle.
  change (discountPercent (computeDiscountedPrice host s1))
    with (clamp (discountNum host (rawDiscount s1))) in Hle.
  change (discountPercent (computeDiscountedPrice host s2))
    with (clamp (discountNum host (rawDiscount s2))) in Hle.
  set (c1 := clamp (discountNum host (rawDiscount s1))) in *.
  set (c2 := clamp (discountNum host (rawDiscount s2))) in *.
  pose proof (clamp_range (discountNum host (rawDiscount s1))) as [A0 A100].
  pose proof (clamp_range (discountNum host (rawDiscount s2))) as [B0 B100].
  fold c1 in A0, A100. fold c2 in B0, B100.
  pose proof (discounted_product_range b c2 Hb B0 B100) as [P0 _].
  exists (round2 (b * (1 - c1 / 100))), (round2 (b * (1 - c2 / 100))).
  split; [apply (discounted_of_finite_base host s1 b H1)|].
  split; [apply (discounted_of_finite_base host s2 b H2)|].
  split; [apply round2_nonneg, P0|].
  apply round2_mono_nonneg; [exact P0|].
  rewrite !(Qmult_comm b). apply Qmult_le_compat_r; [|exact Hb].
  assert (c1 / 100 <= c2 / 100).
  { unfold Qdiv. apply Qmult_le_compat_r; [exact Hle|]. literal_order. }
  lra.
Qed.

Lemma perHour_computed (s : Obj) :
  nullish (field "__price" s) = true ->
  perHour host s
  = JNum (if hasDiscount (computeDiscountedPrice host s)
          then discountedPrice (computeDiscountedPrice host s)
          else basePrice (computeDiscountedPrice host s)).
Proof.
  intro N. unfold perHour, priceMeta. rewrite N.
  cbn [breakdownToJs prop field String.eqb Ascii.eqb Bool.eqb andb truthy].
  destruct (hasDiscount (computeDiscountedPrice host s)); reflexivity.
Qed.

(** X12: for an entity without a [__price] field and with a finite base
    price [b >= 0], the hourly rate is a number between 0 and the base price
    as reported; when a discount is flagged it is the discounted price and
    lies strictly below [b]. *)
Theorem perHour_bounded (s : Obj) (b : Q) :
  nullish (field "__price" s) = true ->
  rawBase host s = Fin b -> 0 <= b ->
  exists q : Q,
    perHour host s = JNum (Fin q)
    /\ 0 <= q /\ q <= round2 b
    /\ basePrice (computeDiscountedPrice host s) = Fin (round2 b)
    /\ (hasDiscount (computeDiscountedPrice host s) = true ->
        discountedPrice (computeDiscountedPrice host s) = Fin q /\ q < b).
Proof.
  intros N Hb Hb0.
  pose proof (clamp_range (discountNum host (rawDiscount s))) as [C0 C100].
  set (c := clamp (discountNum host (rawDiscount s))) in *.
  pose proof (discounted_product_range b c Hb0 C0 C100) as [P0 P1].
  assert (Hbase : basePrice (computeDiscountedPrice host s) = Fin (round2 b)).
  { unfold computeDiscountedPrice. cbn [basePrice]. rewrite Hb. reflexivity. }
  assert (Hdisc : discountedPrice (computeDiscountedPrice host s)
                  = Fin (round2 (b * (1 - c / 100))))
    by apply (discounted_of_finite_base host s b Hb).
  rewrite (perHour_computed s N), Hbase, Hdisc.
  destruct (hasDiscount (computeDiscountedPrice host s)) eqn:Hd.
  - exists (round2 (b * (1 - c / 100))).
    split; [reflexivity|]. split; [apply round2_nonneg, P0|].
    split; [apply round2_mono_nonneg; assumption|].
    split; [reflexivity|]. intros _. split; [reflexivity|].
    rewrite (hasDiscount_of_finite_base host s b Hb) in Hd.
    apply andb_true_iff in Hd. destruct Hd as [_ Hd].
    apply Qltb_iff in Hd. exact Hd.
  - exists (round2 b).
    split; [reflexivity|]. split; [apply round2_nonneg, Hb0|].
    split; [apply Qle_refl|]. split; [reflexivity|]. discriminate.
Qed.

End PriceCalculatorMore.

Lemma discountedPrice_antitone_witness :
  exists p1 p2 : Q,
    discountedPrice (computeDiscountedPrice exampleHost (pricedSpace 200 10))
    = Fin p1
    /\ discountedPrice (computeDiscountedPrice exampleHost (pricedSpace 200 25))
       = Fin p2
    /\ 0 <= p2 /\ p2 <= p1.
Proof.
  apply (discountedPrice_antitone exampleHost
           (pricedSpace 200 10) (pricedSpace 200 25) 200).
  - reflexivity.
  - reflexivity.
  - literal_order.
  - vm_compute. discriminate.
Defined.

Lemma perHour_bounded_witness :
  exists q : Q,
    perHour exampleHost (pricedSpace 200 25) = JNum (Fin q)
    /\ 0 <= q /\ q <= round2 200
    /\ basePrice (computeDiscountedPrice exampleHost (pricedSpace 200 25))
       = Fin (round2 200)
    /\ (hasDiscount (computeDiscountedPrice exampleHost (pricedSpace 200 25))
        = true ->
        discountedPrice (computeDiscountedPrice exampleHost (pricedSpace 200 25))
        = Fin q /\ q < 200).
Proof.
  apply (perHour_bounded exampleHost (pricedSpace 200 25) 200).
  - reflexivity.
  - reflexivity.
  - literal_order.
Defined.

(** ** Duration and total, continued *)

Section DurationMore.

Variable host : Host.

Lemma duration_inv (a b : TimeProp) (h : Q) :
  computeDurationHours host a b = Some h ->
  exists (s e : string) (ts te : Z),
    a = TimeStr s /\ b = TimeStr e
    /\ timeFalsy a = false /\ timeFalsy b = false
    /\ dateGetTime host s = Some ts /\ dateGetTime host e = Some te
    /\ (ts < te)%Z
    /\ h = inject_Z (te - ts) / (1000 * 60) / 60.
Proof.
  unfold computeDurationHours.
  destruct (timeFalsy a) eqn:Fa; [discriminate|].
  destruct (timeFalsy b) eqn:Fb; [discriminate|]. cbn [orb].
  destruct a as [| |s]; try discriminate.
  destruct b as [| |e]; try discriminate.
  destruct (dateGetTime host s) as [ts|] eqn:Es; try discriminate.
  destruct (dateGetTime host e) as [te|] eqn:Ee; try discriminate.
  destruct (te <=? ts)%Z eqn:L; try discriminate.
  intro H. injection H as H. apply Z.leb_gt in L.
  exists s, e, ts, te. repeat split; auto.
Qed.

Lemma duration_intro (s e : string) (ts te : Z) :
  timeFalsy (TimeStr s) = false -> timeFalsy (TimeStr e) = false ->
  dateGetTime host s = Some ts -> dateGetTime host e = Some te ->
  computeDurationHours host (TimeStr s) (TimeStr e)
  = if (te <=? ts)%Z then None
    else Some (inject_Z (te - ts) / (1000 * 60) / 60).
Proof.
  intros Fs Fe Ps Pe. unfold computeDurationHours.
  rewrite Fs, Fe. cbn [orb]. rewrite Ps, Pe. reflexivity.
Qed.

Lemma hours_positive (ts te : Z) :
  (ts < te)%Z -> 0 < inject_Z (te - ts) / (1000 * 60) / 60.
Proof.
  intro H.
  assert (P : 0 < inject_Z (te - ts)).
  { change 0 with (inject_Z 0). rewrite <- Zlt_Qlt. lia. }
  apply Qlt_shift_div_l; [literal_order|].
  apply Qlt_shift_div_l; [literal_order|]. lra.
Qed.

(** X13: a duration, when there is one, is strictly positive, and the same
    two timestamps in the opposite order have none; the total is [null]
    exactly when there is no duration. *)
Theorem duration_positive_and_directed (r : Render) :
  (forall h : Q,
      computeDurationHours host (startTime r) (endTime r) = Some h ->
      0 < h
      /\ computeDurationHours host (endTime r) (startTime r) = None)
  /\ (totalAmount host r = JNull
      <-> computeDurationHours host (startTime r) (endTime r) = None).
Proof.
  split.
  - intros h H.
    destruct (duration_inv _ _ _ H)
      as (s & e & ts & te & Hs & He & Fs & Fe & Ps & Pe & Hlt & Hh).
    split; [rewrite Hh; apply hours_positive, Hlt|].
    rewrite Hs, He in *.
    rewrite (duration_intro e s te ts Fe Fs Pe Ps).
    replace (ts <=? te)%Z with true by (symmetry; apply Z.leb_le; lia).
    reflexivity.
  - split.
    + intro T.
      destruct (computeDurationHours host (startTime r) (endTime r))
        as [h|] eqn:D; [|reflexivity].
      exfalso.
      destruct (duration_inv _ _ _ D)
        as (s & e & ts & te & _ & _ & _ & _ & _ & _ & Hlt & Hh).
      pose proof (hours_positive ts te Hlt) as P. rewrite <- Hh in P.
      unfold totalAmount, durationHours in T. rewrite D in T.
      cbn [truthy] in T.
      assert (Z0 : Qis_zero h = false).
      { unfold Qis_zero. destruct (Qeq_bool h 0) eqn:E; [|reflexivity].
        apply Qeq_bool_iff in E. rewrite E in P. exfalso.
        apply (Qlt_irrefl 0 P). }
      rewrite Z0 in T. discriminate.
    + intro D. apply (no_duration_no_total host r D).
Qed.



End DurationMore.



(** ** RatingAggregator: normalization, continued *)

Section SummaryMore.

Variable host : Host.

Lemma records_summary (sp : Obj) (data : JsVal) (v : View) :
  noNullItems (ratingsArray data) = true ->
  statsUsable data = false ->
  exists normalized : list JsVal,
    mapM (normalizeReview host) (ratingsArray data) = Ret normalized
    /\ apply_updates v (onFulfilled host sp false data)
       = apply_updates v
           (if (0 <? List.length (ratingsArray data))%nat
            then [SetRatingAvg (meanScore host (ratingsArray data));
                  SetRatingCount (Fin (lengthNum (ratingsArray data)));
                  SetReviews (sortNewestFirst host normalized)]
            else [SetRatingAvg (cachedRating host sp); SetRatingCount (Fin 0);
                  SetReviews []]).
Proof.
  intros Hnn Hs.
  destruct (normalize_no_null host _ Hnn) as [l Hl].
  exists l. split; [exact Hl|].
  unfold onFulfilled, summaryUpdates, reviewUpdates. rewrite Hs.
  destruct (0 <? List.length (ratingsArray data))%nat eqn:L.
  - rewrite (sumScores_no_null host _ _ Hnn), Hl. cbn [bind].
    rewrite String.eqb_refl. cbn [andb negb].
    apply length_pos_iff in L. rewrite (Qmax_one_length _ L).
    reflexivity.
  - reflexivity.
Qed.




(** X17: with a sort that keeps the number of entries, and no usable
    [stats] object, the count shown is the number of reviews in the list. *)
Theorem count_matches_review_list (sp : Obj) (data : JsVal) (v : View) :
  (forall l : list JsVal,
      List.length (sortNewestFirst host l) = List.length l) ->
  noNullItems (ratingsArray data) = true ->
  statsUsable data = false ->
  ratingCount (apply_updates v (onFulfilled host sp false data))
  = Fin (lengthNum (reviews (apply_updates v (onFulfilled host sp false data))))
  /\ List.length (reviews (apply_updates v (onFulfilled host sp false data)))
     = List.length (ratingsArray data).
Proof.
  intros Hsort Hnn Hs.
  destruct (records_summary sp data v Hnn Hs) as (l & Hl & E).
  rewrite E.
  destruct (0 <? List.length (ratingsArray data))%nat eqn:L;
    cbn [apply_updates fold_left apply_update ratingCount reviews].
  - unfold lengthNum. rewrite Hsort, (mapM_length _ _ _ Hl).
    split; reflexivity.
  - destruct (ratingsArray data); [split; reflexivity|discriminate].
Qed.

End SummaryMore.


Lemma count_matches_review_list_witness :
  ratingCount (apply_updates blankView
                 (onFulfilled exampleHost spaceA false
                    (JArr [JObj [("score", JNum (Fin 5))];
                           JObj [("score", JNum (Fin 2))]])))
  = Fin (lengthNum
           (reviews (apply_updates blankView
                       (onFulfilled exampleHost spaceA false
                          (JArr [JObj [("score", JNum (Fin 5))];
                                 JObj [("score", JNum (Fin 2))]])))))
  /\ List.length
       (reviews (apply_updates blankView
                   (onFulfilled exampleHost spaceA false
                      (JArr [JObj [("score", JNum (Fin 5))];
                             JObj [("score", JNum (Fin 2))]]))))
     = List.length
         (ratingsArray (JArr [JObj [("score", JNum (Fin 5))];
                              JObj [("score", JNum (Fin 2))]])).
Proof.
  apply (count_matches_review_list exampleHost spaceA
           (JArr [JObj [("score", JNum (Fin 5))];
                  JObj [("score", JNum (Fin 2))]]) blankView).
  - intro l. reflexivity.
  - reflexivity.
  - reflexivity.
Defined.

Lemma null_item_falls_back_witness :
  ratingAvg (apply_updates blankView
               (onFulfilled exampleHost spaceA false
                  (JObj [("ratings", JArr [JNull]);
                         ("stats", JObj [("avg", JNum (Fin 3))])])))
  = cachedRating exampleHost spaceA
  /\ ratingCount (apply_updates blankView
                    (onFulfilled exampleHost spaceA false
                       (JObj [("ratings", JArr [JNull]);
                              ("stats", JObj [("avg", JNum (Fin 3))])])))
     = Fin 0
  /\ reviews (apply_updates blankView
                (onFulfilled exampleHost spaceA false
                   (JObj [("ratings", JArr [JNull]);
                          ("stats", JObj [("avg", JNum (Fin 3))])])))
     = [].
Proof.
  apply (null_item_falls_back exampleHost spaceA
           (JObj [("ratings", JArr [JNull]);
                  ("stats", JObj [("avg", JNum (Fin 3))])]) blankView).
  reflexivity.
Defined.

(** ** RatingAggregator: cancellation, continued *)

Section CancellationMore.

Variable host : Host.

(** X19: at any point of any run at most one request is not cancelled; it
    is the newest one, and the component is mounted. *)
Theorem at_most_one_live_request (sp0 : Obj) (evs : list Event) (j k : nat)
        (rq1 rq2 : Request) :
  nth_error (requests (run host (mount host sp0) evs)) j = Some rq1 ->
  req_aborted rq1 = false ->
  nth_error (requests (run host (mount host sp0) evs)) k = Some rq2 ->
  req_aborted rq2 = false ->
  j = k
  /\ active (run host (mount host sp0) evs) = Some j
  /\ S j = List.length (requests (run host (mount host sp0) evs))
  /\ mounted (run host (mount host sp0) evs) = true.
Proof.
  set (c := run host (mount host sp0) evs).
  intros H1 A1 H2 A2.
  assert (I : Inv c) by (apply Inv_run, Inv_mount).
  assert (L : forall i rq, nth_error (requests c) i = Some rq ->
                           req_aborted rq = false -> active c = Some i).
  { intros i rq H A. destruct (active c) as [a|] eqn:E.
    - destruct (Nat.eq_dec a i) as [Eq|Ne]; [subst a; reflexivity|].
      assert (T : req_aborted rq = true).
      { apply (inv_others_aborted c I i rq H). rewrite E. congruence. }
      congruence.
    - assert (T : req_aborted rq = true).
      { apply (inv_others_aborted c I i rq H). rewrite E. discriminate. }
      congruence. }
  pose proof (L j rq1 H1 A1) as Aj. pose proof (L k rq2 H2 A2) as Ak.
  split; [congruence|]. split; [exact Aj|].
  split; [apply (inv_active_newest c I j Aj)|].
  destruct (mounted c) eqn:M; [reflexivity|].
  rewrite (inv_unmounted c I M) in Aj. discriminate.
Qed.

Lemma select_other_entity (c : Component) (sp : Obj) :
  mounted c = true ->
  sameDep (field "_id" (cur_space c)) (field "_id" sp) = false ->
  visible (step host c (Select sp)) = (cachedRating host sp, Fin 0, [])
  /\ currentImageIndex (view (step host c (Select sp))) = 0%Z
  /\ isImageLoaded (view (step host c (Select sp))) = false
  /\ requests (step host c (Select sp))
     = cleanup c
       ++ (if truthy (field "_id" sp)
           then [{| req_space := sp; req_aborted := false |}]
           else [])
  /\ List.length (cleanup c) = List.length (requests c).
Proof.
  intros M D. cbn [step]. rewrite M, D. cbn [negb]. unfold runEffects.
  destruct (truthy (field "_id" sp)); cbn [negb];
    repeat split; try apply cleanup_length.
  symmetry. apply app_nil_r.
Qed.

Lemma nth_error_in_prefix {A : Type} (l l' : list A) (k : nat) :
  (k < List.length l)%nat -> nth_error (l ++ l') k = nth_error l k.
Proof. intro H. apply nth_error_app1, H. Qed.

(** X20: in any state a run can reach, selecting an entity whose id is not
    an object and differs from the current one at once shows that entity's
    cached rating with no count and no reviews, and puts the carousel back
    on the first picture; every request issued before is now cancelled;
    one new request, not cancelled, is issued and becomes the active one if
    the entity has a truthy id, and none is issued or active otherwise. *)
Theorem selection_resets_view (sp0 : Obj) (evs : list Event) (sp : Obj) :
  mounted (run host (mount host sp0) evs) = true ->
  sameDep (field "_id" (cur_space (run host (mount host sp0) evs)))
          (field "_id" sp) = false ->
  primitive (field "_id" sp) = true ->
  visible (step host (run host (mount host sp0) evs) (Select sp))
  = (cachedRating host sp, Fin 0, [])
  /\ currentImageIndex
       (view (step host (run host (mount host sp0) evs) (Select sp))) = 0%Z
  /\ isImageLoaded
       (view (step host (run host (mount host sp0) evs) (Select sp))) = false
  /\ (forall (k : nat) (rq : Request),
         (k < List.length (requests (run host (mount host sp0) evs)))%nat ->
         nth_error
           (requests (step host (run host (mount host sp0) evs) (Select sp))) k
         = Some rq ->
         req_aborted rq = true)
  /\ (truthy (field "_id" sp) = true ->
      List.length
        (requests (step host (run host (mount host sp0) evs) (Select sp)))
      = S (List.length (requests (run host (mount host sp0) evs)))
      /\ nth_error
           (requests (step host (run host (mount host sp0) evs) (Select sp)))
           (List.length (requests (run host (mount host sp0) evs)))
         = Some {| req_space := sp; req_aborted := false |}
      /\ active (step host (run host (mount host sp0) evs) (Select sp))
         = Some (List.length (requests (run host (mount host sp0) evs))))
  /\ (truthy (field "_id" sp) = false ->
      List.length
        (requests (step host (run host (mount host sp0) evs) (Select sp)))
      = List.length (requests (run host (mount host sp0) evs))
      /\ active (step host (run host (mount host sp0) evs) (Select sp))
         = None).
Proof.
  set (c := run host (mount host sp0) evs).
  intros M D _.
  assert (I : Inv c) by (apply Inv_run, Inv_mount).
  destruct (select_other_entity c sp M D) as (V & X & L & R & Len).
  assert (A : active (step host c (Select sp))
              = if truthy (field "_id" sp)
                then Some (List.length (requests c)) else None).
  { cbn [step]. rewrite M, D. cbn [negb]. unfold runEffects.
    destruct (truthy (field "_id" sp)); cbn [negb active];
      [rewrite cleanup_length|]; reflexivity. }
  split; [exact V|]. split; [exact X|]. split; [exact L|].
  split.
  { intros k rq Hk H. rewrite R in H.
    rewrite nth_error_in_prefix in H by (rewrite Len; exact Hk).
    apply (cleanup_all_aborted c I k rq H). }
  split; intro T; rewrite T in R, A.
  - split; [rewrite R, length_app, Len; simpl; lia|].
    split; [|exact A].
    rewrite R, nth_error_app2 by (rewrite Len; lia).
    rewrite Len, Nat.sub_diag. reflexivity.
  - split; [rewrite R, app_nil_r; exact Len|exact A].
Qed.

Lemma live_failure_shows_fallback (c : Component) (k : nat) (rq : Request) :
  nth_error (requests c) k = Some rq -> req_aborted rq = false ->
  visible (step host c (Reject k))
  = (cachedRating host (req_space rq), Fin 0, [])
  /\ (forall data : JsVal,
         ratingsArray data = [] -> statsUsable data = false ->
         visible (step host c (Fulfil k data))
         = (cachedRating host (req_space rq), Fin 0, [])).
Proof.
  intros H A. split.
  - cbn [step]. rewrite H, A. reflexivity.
  - intros data Ha Hs. cbn [step]. rewrite H, A.
    unfold fetchRatings, onFulfilled, summaryUpdates, reviewUpdates.
    rewrite Hs, Ha. reflexivity.
Qed.

(** X21: after a selection that issued a request, the failure of that
    request, or an answer holding no records and no usable statistics,
    leaves on screen what the selection put there. *)
Theorem failure_after_selection_is_invisible (c : Component) (sp : Obj) :
  mounted c = true ->
  sameDep (field "_id" (cur_space c)) (field "_id" sp) = false ->
  truthy (field "_id" sp) = true ->
  visible (step host (step host c (Select sp))
             (Reject (List.length (requests c))))
  = visible (step host c (Select sp))
  /\ (forall data : JsVal,
         ratingsArray data = [] -> statsUsable data = false ->
         visible (step host (step host c (Select sp))
                    (Fulfil (List.length (requests c)) data))
         = visible (step host c (Select sp))).
Proof.
  intros M D T.
  destruct (select_other_entity c sp M D) as (V & _ & _ & R & L).
  rewrite T in R.
  assert (N : nth_error (requests (step host c (Select sp)))
                (List.length (requests c))
              = Some {| req_space := sp; req_aborted := false |}).
  { rewrite R, nth_error_app2 by (rewrite L; lia).
    rewrite L, Nat.sub_diag. reflexivity. }
  destruct (live_failure_shows_fallback _ _ _ N eq_refl) as [F1 F2].
  rewrite V. split; [exact F1|exact F2].
Qed.

End CancellationMore.

Lemma at_most_one_live_request_witness :
  1%nat = 1%nat
  /\ active (run exampleHost (mount exampleHost spaceA) [Select spaceB])
     = Some 1%nat
  /\ 2%nat
     = List.length
         (requests (run exampleHost (mount exampleHost spaceA) [Select spaceB]))
  /\ mounted (run exampleHost (mount exampleHost spaceA) [Select spaceB])
     = true.
Proof.
  apply (at_most_one_live_request exampleHost spaceA [Select spaceB] 1 1
           {| req_space := spaceB; req_aborted := false |}
           {| req_space := spaceB; req_aborted := false |});
    reflexivity.
Defined.

Lemma selection_resets_view_witness :
  visible (step exampleHost (run exampleHost (mount exampleHost spaceA) [])
             (Select spaceB))
  = (cachedRating exampleHost spaceB, Fin 0, [])
  /\ (forall (k : nat) (rq : Request),
         (k < List.length
                (requests (run exampleHost (mount exampleHost spaceA) [])))%nat ->
         nth_error
           (requests (step exampleHost
                        (run exampleHost (mount exampleHost spaceA) [])
                        (Select spaceB))) k
         = Some rq ->
         req_aborted rq = true).
Proof.
  destruct (selection_resets_view exampleHost spaceA [] spaceB
              eq_refl eq_refl eq_refl) as (V & _ & _ & A & _).
  split; [exact V|exact A].
Defined.

Lemma failure_after_selection_is_invisible_witness :
  visible (step exampleHost
             (step exampleHost (mount exampleHost spaceA) (Select spaceB))
             (Reject (List.length (requests (mount exampleHost spaceA)))))
  = visible (step exampleHost (mount exampleHost spaceA) (Select spaceB)).
Proof.
  apply (failure_after_selection_is_invisible exampleHost
           (mount exampleHost spaceA) spaceB); reflexivity.
Defined.

(** ** BookingEligibilityGate, continued *)

Lemma reentry_with_flag_still_false_witness :
  onPhoneVerifySuccess exampleHost
    (slot morning noon (Some verifiedUser) (Some [("phoneVerified", JBool false)]))
  = [SetShowPhoneModal false; SetShowPhoneModal true].
Proof.
  apply (reentry_with_flag_still_false exampleHost
           (slot morning noon (Some verifiedUser)
              (Some [("phoneVerified", JBool false)]))
           verifiedUser); reflexivity.
Defined.

(** ** Review card *)

Section ReviewCard.

Variable host : Host.

Lemma js_or_truthy_r (a b : JsVal) : truthy b = true -> truthy (js_or a b) = true.
Proof. intro H. unfold js_or. destruct (truthy a) eqn:T; assumption. Qed.

(** X22: a record that is not [null] always normalizes; its card shows an
    author and a comment that are never empty, its score is a number, and
    the author shown is the object's [name], [fullName] or [email], in
    that order, and "Anonymous" when none is usable or the record's
    [fromUser] is not an object, a bare identifier string included. *)
Theorem review_card_never_blank (r : JsVal) :
  nullish r = false ->
  exists n : JsVal,
    normalizeReview host r = Ret n
    /\ truthy (shownAuthor n) = true
    /\ truthy (shownComment n) = true
    /\ typeof (prop n "score") = TyNumber
    /\ prop n "_id" = prop r "_id"
    /\ (forall o : Obj,
           prop r "fromUser" = JObj o ->
           shownAuthor n
           = js_or (js_or (js_or (field "name" o) (field "fullName" o))
                          (field "email" o))
                   (JStr "Anonymous"))
    /\ ((forall o : Obj, prop r "fromUser" <> JObj o) ->
        shownAuthor n = JStr "Anonymous").
Proof.
  intro N. unfold normalizeReview, item_prop. rewrite N. cbn [bind].
  eexists. split; [reflexivity|].
  unfold shownAuthor, shownComment.
  cbn [prop field String.eqb Ascii.eqb Bool.eqb andb typeof].
  assert (A : forall o : Obj,
             truthy (js_or (js_or (js_or (field "name" o) (field "fullName" o))
                                  (field "email" o))
                           (JStr "Anonymous")) = true)
    by (intro o; apply js_or_truthy_r; reflexivity).
  split; [|split; [apply js_or_truthy_r; reflexivity|]].
  - destruct (prop r "fromUser") as [| |b|m|t|l|o];
      cbn [normalizeFromUser typeof JsType_eqb optprop prop field String.eqb
           Ascii.eqb Bool.eqb andb truthy];
      try reflexivity.
    rewrite (A o). apply A.
  - split; [reflexivity|]. split; [reflexivity|]. split.
    + intros o Ho. rewrite Ho.
      cbn [normalizeFromUser typeof JsType_eqb optprop prop field String.eqb
           Ascii.eqb Bool.eqb andb]. rewrite (A o). reflexivity.
    + intro Ho.
      destruct (prop r "fromUser") as [| |b|m|t|l|o];
        cbn [normalizeFromUser typeof JsType_eqb optprop prop field String.eqb
             Ascii.eqb Bool.eqb andb truthy];
        try reflexivity.
      exfalso. apply (Ho o). reflexivity.
Qed.

End ReviewCard.

Lemma review_card_never_blank_witness :
  exists n : JsVal,
    normalizeReview exampleHost (JObj [("fromUser", JStr "u42")]) = Ret n
    /\ truthy (shownAuthor n) = true
    /\ shownAuthor n = JStr "Anonymous".
Proof.
  destruct (review_card_never_blank exampleHost
              (JObj [("fromUser", JStr "u42")]) eq_refl)
    as (n & Hn & Ha & _ & _ & _ & _ & Hanon).
  exists n. split; [exact Hn|]. split; [exact Ha|].
  apply Hanon. intros o Ho. discriminate.
Defined.

(** ** Navbar: the guarded refresh *)

Lemma refreshRuns_cons (r0 : JsVal) (a : AuthSnapshot) (rest : list AuthSnapshot) :
  refreshRuns r0 (a :: rest)
  = (fst (refreshRuns (fst (refreshEffect r0 a)) rest),
     if snd (refreshEffect r0 a)
     then navUserId a :: snd (refreshRuns (fst (refreshEffect r0 a)) rest)
     else snd (refreshRuns (fst (refreshEffect r0 a)) rest)).
Proof.
  cbn [refreshRuns]. destruct (refreshEffect r0 a) as [r1 called].
  cbn [fst snd]. destruct (refreshRuns r1 rest). reflexivity.
Qed.

Lemma refreshEffect_cases (r0 : JsVal) (a : AuthSnapshot) :
  (refreshEffect r0 a = (r0, false))
  \/ (refreshEffect r0 a = (navUserId a, true)
      /\ isAuthenticated a = true
      /\ truthy (navUserId a) = true
      /\ strictEq r0 (navUserId a) = false).
Proof.
  unfold refreshEffect.
  destruct (isAuthenticated a); cbn [negb orb]; [|left; reflexivity].
  destruct (truthy (navUserId a)); cbn [negb]; [|left; reflexivity].
  destruct (strictEq r0 (navUserId a)); [left; reflexivity|].
  right. repeat split.
Qed.

Lemma last_of_nonempty (x : JsVal) (l : list JsVal) (d d' : JsVal) :
  last (x :: l) d = last (x :: l) d'.
Proof.
  revert x. induction l as [|y l IH]; intro x; [reflexivity|].
  change (last (x :: y :: l) d) with (last (y :: l) d).
  change (last (x :: y :: l) d') with (last (y :: l) d').
  apply IH.
Qed.

(** X23: over any sequence of runs of the effect, [refreshUser] is only
    called for a truthy user id, never twice in a row for the same id
    (nor for the id already in the ref), and the ref ends up holding the
    id of the last call. *)
Theorem refresh_never_repeats (r0 : JsVal) (runs : list AuthSnapshot) :
  noRepeatAfter r0 (snd (refreshRuns r0 runs)) = true
  /\ Forall (fun id => truthy id = true) (snd (refreshRuns r0 runs))
  /\ fst (refreshRuns r0 runs) = last (snd (refreshRuns r0 runs)) r0.
Proof.
  revert r0. induction runs as [|a rest IH]; intro r0.
  - repeat split. constructor.
  - rewrite refreshRuns_cons.
    destruct (refreshEffect_cases r0 a) as [E|(E & _ & T & S)];
      rewrite E; cbn [fst snd].
    + apply IH.
    + destruct (IH (navUserId a)) as (N & F & L).
      split; [cbn [noRepeatAfter]; rewrite S, N; reflexivity|].
      split; [constructor; assumption|].
      rewrite L.
      destruct (snd (refreshRuns (navUserId a) rest)) as [|j l];
        [reflexivity|].
      change (last (navUserId a :: j :: l) r0) with (last (j :: l) r0).
      apply last_of_nonempty.
Qed.

(** X24: while every authenticated run carries the same user id,
    [refreshUser] is called at most once, runs without a session in
    between included. *)
Theorem refresh_once_per_user (id : JsVal) (runs : list AuthSnapshot) :
  strictEq id id = true ->
  (forall a : AuthSnapshot,
      In a runs -> isAuthenticated a = true -> navUserId a = id) ->
  (List.length (snd (refreshRuns initialLastRef runs)) <= 1)%nat
  /\ snd (refreshRuns id runs) = [].
Proof.
  intros R H.
  assert (Same : forall rs : list AuthSnapshot,
             (forall a, In a rs -> isAuthenticated a = true ->
                        navUserId a = id) ->
             snd (refreshRuns id rs) = []).
  { induction rs as [|a rs IH]; intro Hrs; [reflexivity|].
    rewrite refreshRuns_cons.
    destruct (refreshEffect_cases id a) as [E|(E & Au & _ & S)].
    - rewrite E. cbn [fst snd]. apply IH.
      intros b Hb. apply Hrs. right. exact Hb.
    - rewrite (Hrs a (or_introl eq_refl) Au) in S. congruence. }
  split; [|apply Same, H].
  revert H. generalize initialLastRef.
  induction runs as [|a rs IH]; intros r0 H; [simpl; lia|].
  rewrite refreshRuns_cons.
  destruct (refreshEffect_cases r0 a) as [E|(E & Au & _ & _)];
    rewrite E; cbn [fst snd].
  - apply IH. intros b Hb. apply H. right. exact Hb.
  - rewrite (H a (or_introl eq_refl) Au).
    rewrite Same; [simpl; lia|].
    intros b Hb. apply H. right. exact Hb.
Qed.

Lemma refresh_once_per_user_witness :
  (List.length
     (snd (refreshRuns initialLastRef
             [ {| isAuthenticated := true;
                  navUser := Some [("_id", JStr "u1")] |};
               {| isAuthenticated := false; navUser := None |};
               {| isAuthenticated := true;
                  navUser := Some [("_id", JStr "u1")] |} ])) <= 1)%nat.
Proof.
  apply (refresh_once_per_user (JStr "u1")
           [ {| isAuthenticated := true;
                navUser := Some [("_id", JStr "u1")] |};
             {| isAuthenticated := false; navUser := None |};
             {| isAuthenticated := true;
                navUser := Some [("_id", JStr "u1")] |} ]).
  - reflexivity.
  - intros a [Ha|[Ha|[Ha|[]]]] Au; subst a; try reflexivity; discriminate.
Defined.

(** The ref remembers only the last id: going from one user to another and
    back refreshes the first user twice. *)
Example refresh_again_after_another_user :
  snd (refreshRuns initialLastRef
         [ {| isAuthenticated := true; navUser := Some [("_id", JStr "u1")] |};
           {| isAuthenticated := true; navUser := Some [("_id", JStr "u2")] |};
           {| isAuthenticated := true; navUser := Some [("_id", JStr "u1")] |} ])
  = [JStr "u1"; JStr "u2"; JStr "u1"].
Proof. reflexivity. Qed.

(** ** Navbar: the KYC link *)

Lemma isBlank_lowerChar (c : ascii) : isBlank (lowerChar c) = isBlank c.
Proof.
  destruct c as [[|] [|] [|] [|] [|] [|] [|] [|]]; reflexivity.
Qed.

Lemma asciiChar_lowerChar (c : ascii) : asciiChar (lowerChar c) = asciiChar c.
Proof.
  destruct c as [[|] [|] [|] [|] [|] [|] [|] [|]]; reflexivity.
Qed.

Lemma isBlank_asciiChar (c : ascii) : isBlank c = true -> asciiChar c = true.
Proof.
  destruct c as [[|] [|] [|] [|] [|] [|] [|] [|]]; intro H;
    try reflexivity; discriminate.
Qed.

Lemma chars_of_append (a b : string) :
  list_ascii_of_string (a ++ b)%string
  = list_ascii_of_string a ++ list_ascii_of_string b.
Proof.
  induction a as [|c a IH]; [reflexivity|]. simpl. rewrite IH. reflexivity.
Qed.

Lemma dropBlanks_lower (l : list ascii) :
  dropBlanks (map lowerChar l) = map lowerChar (dropBlanks l).
Proof.
  induction l as [|c l IH]; [reflexivity|].
  cbn [map dropBlanks]. rewrite isBlank_lowerChar.
  destruct (isBlank c); [exact IH|reflexivity].
Qed.

Lemma dropBlanks_leading (ws l : list ascii) :
  forallb isBlank ws = true -> dropBlanks (ws ++ l) = dropBlanks l.
Proof.
  induction ws as [|c ws IH]; intro H; [reflexivity|].
  simpl in H. apply andb_true_iff in H. destruct H as [Hc Hws].
  simpl. rewrite Hc. apply IH, Hws.
Qed.

Lemma dropBlanks_all (ws : list ascii) :
  forallb isBlank ws = true -> dropBlanks ws = [].
Proof.
  intro H. rewrite <- (app_nil_r ws). rewrite (dropBlanks_leading ws [] H).
  reflexivity.
Qed.

Lemma forallb_rev {A : Type} (f : A -> bool) (l : list A) :
  forallb f (rev l) = forallb f l.
Proof.
  induction l as [|x l IH]; [reflexivity|].
  simpl. rewrite forallb_app, IH. simpl. rewrite andb_true_r.
  apply andb_comm.
Qed.

Lemma forallb_dropBlanks (f : ascii -> bool) (l : list ascii) :
  forallb f l = true -> forallb f (dropBlanks l) = true.
Proof.
  induction l as [|c l IH]; intro H; [reflexivity|].
  simpl. destruct (isBlank c); [|exact H].
  simpl in H. apply andb_true_iff in H. apply IH, H.
Qed.

(** Trimming both ends of a list of characters. *)
Lemma trim_trailing (l ws : list ascii) :
  forallb isBlank ws = true ->
  rev (dropBlanks (rev (dropBlanks (l ++ ws))))
  = rev (dropBlanks (rev (dropBlanks l))).
Proof.
  intro H. induction l as [|c l IH].
  - simpl. rewrite (dropBlanks_all ws H). reflexivity.
  - cbn [app dropBlanks]. destruct (isBlank c); [exact IH|].
    change (c :: l ++ ws) with ((c :: l) ++ ws).
    rewrite rev_app_distr.
    rewrite dropBlanks_leading by (rewrite forallb_rev; exact H).
    reflexivity.
Qed.

Lemma asciiTrim_padding (pre s post : string) :
  forallb isBlank (list_ascii_of_string pre) = true ->
  forallb isBlank (list_ascii_of_string post) = true ->
  asciiTrim (pre ++ s ++ post) = asciiTrim s.
Proof.
  intros Hpre Hpost. unfold asciiTrim. f_equal.
  rewrite !chars_of_append.
  rewrite (dropBlanks_leading _ _ Hpre).
  apply trim_trailing, Hpost.
Qed.

Lemma asciiLower_asciiTrim (s : string) :
  asciiLower (asciiTrim s) = asciiTrim (asciiLower s).
Proof.
  unfold asciiLower, asciiTrim.
  rewrite !list_ascii_of_string_of_list_ascii. f_equal.
  rewrite dropBlanks_lower, <- map_rev, dropBlanks_lower, <- map_rev.
  reflexivity.
Qed.

Lemma isAscii_asciiTrim (s : string) :
  isAscii s = true -> isAscii (asciiTrim s) = true.
Proof.
  unfold isAscii, asciiTrim. intro H.
  rewrite list_ascii_of_string_of_list_ascii, forallb_rev.
  apply forallb_dropBlanks. rewrite forallb_rev.
  apply forallb_dropBlanks, H.
Qed.

Lemma isAscii_padded (pre s post : string) :
  forallb isBlank (list_ascii_of_string pre) = true ->
  forallb isBlank (list_ascii_of_string post) = true ->
  isAscii s = true ->
  isAscii (pre ++ s ++ post) = true.
Proof.
  unfold isAscii. intros Hpre Hpost Hs.
  assert (B : forall l, forallb isBlank l = true -> forallb asciiChar l = true).
  { intros l Hl. apply forallb_forall. intros c Hc.
    apply isBlank_asciiChar. rewrite forallb_forall in Hl. apply Hl, Hc. }
  rewrite !chars_of_append, !forallb_app, Hs, (B _ Hpre), (B _ Hpost).
  reflexivity.
Qed.

Section KycLink.

Variable th : TextHost.

Lemma normalized_ascii (o : Obj) (s : string) :
  field "kycStatus" o = JStr s -> isAscii s = true ->
  kycNormalized th (Some o) = Some (asciiLower (asciiTrim s)).
Proof.
  intros Hf Ha. unfold kycNormalized, coalesce. rewrite Hf. cbn [nullish].
  unfold trim, toLowerCase. rewrite Ha, (isAscii_asciiTrim s Ha).
  reflexivity.
Qed.


(** X26: for statuses in plain ASCII the link does not depend on the case
    of the letters nor on blanks around the status. *)
Theorem kyc_link_ignores_case_and_padding (o1 o2 : Obj) (pre s1 post s2 : string) :
  field "kycStatus" o1 = JStr (pre ++ s1 ++ post) ->
  field "kycStatus" o2 = JStr s2 ->
  forallb isBlank (list_ascii_of_string pre) = true ->
  forallb isBlank (list_ascii_of_string post) = true ->
  isAscii s1 = true -> isAscii s2 = true ->
  asciiLower s1 = asciiLower s2 ->
  shouldShowKYC th (Some o1) = shouldShowKYC th (Some o2).
Proof.
  intros H1 H2 Hpre Hpost A1 A2 E. unfold shouldShowKYC.
  rewrite (normalized_ascii o1 _ H1 (isAscii_padded pre s1 post Hpre Hpost A1)).
  rewrite (normalized_ascii o2 _ H2 A2).
  rewrite (asciiTrim_padding pre s1 post Hpre Hpost).
  rewrite !asciiLower_asciiTrim, E. reflexivity.
Qed.

End KycLink.

Lemma kyc_link_ignores_case_and_padding_witness :
  shouldShowKYC {| hostTrim := fun s => s; hostToLowerCase := fun s => s |}
    (userWithStatus "  Approved ")
  = shouldShowKYC {| hostTrim := fun s => s; hostToLowerCase := fun s => s |}
      (userWithStatus "approved").
Proof.
  apply (kyc_link_ignores_case_and_padding
           {| hostTrim := fun s => s; hostToLowerCase := fun s => s |}
           [("_id", JStr "u1"); ("kycStatus", JStr "  Approved ")]
           [("_id", JStr "u1"); ("kycStatus", JStr "approved")]
           "  " "Approved" " " "approved"); reflexivity.
Defined.

Example kyc_link_examples :
  shouldShowKYC {| hostTrim := fun s => s; hostToLowerCase := fun s => s |}
    (userWithStatus " SUBMITTED") = false
  /\ shouldShowKYC {| hostTrim := fun s => s; hostToLowerCase := fun s => s |}
       (userWithStatus "pending") = true
  /\ shouldShowKYC {| hostTrim := fun s => s; hostToLowerCase := fun s => s |}
       (userWithStatus "") = true.
Proof. repeat split. Qed.
